(** * Visual regression scripts: URL reconciliation, capture and report

    A shallow embedding of the two scripts of the repository:

    - [pythonregression.py], the baseline script (module [Baseline]);
    - the "SELENIUM VERSION WITH IMPROVED RENDERING" script (module
      [Variant]).

    Python [str] values are modelled as [string]s holding the UTF-8 bytes of
    the text.  Every character the scripts test for is ASCII, and the
    byte-wise lexicographic order of UTF-8 coincides with Python's code-point
    order, so [strip], [replace], truthiness and [sorted] act on the bytes
    exactly as they act on the code points.

    Calls to [logging] and [time.sleep] carry neither data nor exceptions
    into the rest of the program and are left out of the embedding. *)

From Stdlib Require Import Ascii.
From stdpp Require Import base option list sorting gmap strings.

Local Open Scope string_scope.

(** ** Python string primitives used by the scripts *)

Module Py.

(** Truthiness of a [str]: only the empty string is falsy. *)
Definition truthy (s : string) : bool :=
  match s with
  | "" => false
  | String _ _ => true
  end.

(** [a or b] on strings. *)
Definition or_else (a b : string) : string :=
  if truthy a then a else b.

(** [s.lstrip(c)] for a one-character argument. *)
Fixpoint lstrip (c : ascii) (s : string) : string :=
  match s with
  | "" => ""
  | String a s' => if Ascii.eqb a c then lstrip c s' else s
  end.

(** [s.rstrip(c)] for a one-character argument. *)
Fixpoint rstrip (c : ascii) (s : string) : string :=
  match s with
  | "" => ""
  | String a s' =>
      match rstrip c s' with
      | "" => if Ascii.eqb a c then "" else String a ""
      | r => String a r
      end
  end.

(** [s.strip(c)] for a one-character argument. *)
Definition strip (c : ascii) (s : string) : string :=
  rstrip c (lstrip c s).

(** [s.replace(old, new)] for one-character [old] and [new]. *)
Fixpoint replace (old new : ascii) (s : string) : string :=
  match s with
  | "" => ""
  | String a s' =>
      String (if Ascii.eqb a old then new else a) (replace old new s')
  end.

(** [c in s] for a one-character [c]. *)
Fixpoint contains (c : ascii) (s : string) : bool :=
  match s with
  | "" => false
  | String a s' => Ascii.eqb a c || contains c s'
  end.

(** [s.startswith(p)]. *)
Fixpoint startswith (p s : string) : bool :=
  match p, s with
  | "", _ => true
  | String a p', String b s' => Ascii.eqb a b && startswith p' s'
  | String _ _, "" => false
  end.

(** [s[n:]]. *)
Fixpoint drop (n : nat) (s : string) : string :=
  match n, s with
  | O, _ => s
  | S n', String _ s' => drop n' s'
  | S _, "" => ""
  end.

(** The white-space characters of [str.isspace], as UTF-8 sequences:
    U+0009..U+000D, U+001C..U+0020, U+0085, U+00A0, U+1680,
    U+2000..U+200A, U+2028, U+2029, U+202F, U+205F and U+3000. *)
Definition whitespace : list string :=
  let b (n : nat) := String (ascii_of_nat n) "" in
  let b2 (x y : nat) := String (ascii_of_nat x) (b y) in
  let b3 (x y z : nat) := String (ascii_of_nat x) (b2 y z) in
  (b <$> [9; 10; 11; 12; 13; 28; 29; 30; 31; 32])%nat
  ++ [b2 194 133; b2 194 160; b3 225 154 128]%nat
  ++ (b3 226 128 <$> [128; 129; 130; 131; 132; 133; 134; 135; 136; 137;
                      138; 168; 169; 175])%nat
  ++ [b3 226 129 159; b3 227 128 128]%nat.

(** Strips leading white space; [fuel] bounds the number of characters
    removed and is taken to be the length of the string. *)
Fixpoint lstrip_ws_aux (ws : list string) (fuel : nat) (s : string) : string :=
  match fuel with
  | O => s
  | S fuel' =>
      match List.find (fun w => startswith w s) ws with
      | Some w => lstrip_ws_aux ws fuel' (drop (String.length w) s)
      | None => s
      end
  end.

(** [s.strip()] with no argument: white space removed at both ends. *)
Definition strip_ws (s : string) : string :=
  let l := lstrip_ws_aux whitespace (String.length s) s in
  String.rev
    (lstrip_ws_aux (String.rev <$> whitespace) (String.length l)
       (String.rev l)).

End Py.

(** ** Slug derivation (both scripts, [get_path_slug]) *)

(** [path.strip('/').replace('/', '_') or 'home'] *)
Definition get_path_slug (path : string) : string :=
  Py.or_else (Py.replace "/" "_" (Py.strip "/" path)) "home".

(** ** Exceptions, results and the state-and-exception monad *)

(** The exception classes that can reach the scripts' handlers.  All of them
    derive from [Exception]; [WebDriverException] is the class raised by the
    browser-automation layer.  Exceptions outside [Exception]
    ([KeyboardInterrupt], [SystemExit]) end the process and are not
    modelled. *)
Inductive exn : Type :=
  | WebDriverException
  | RequestException
  | HTTPError
  | ValueError
  | TypeError
  | KeyError
  | OSError
  | BinasciiError.

Global Instance exn_eq_dec : EqDecision exn.
Proof. solve_decision. Defined.

(** [isinstance(e, WebDriverException)] *)
Definition is_WebDriverException (e : exn) : bool :=
  match e with
  | WebDriverException => true
  | _ => false
  end.

(** [isinstance(e, Exception)] *)
Definition is_Exception (e : exn) : bool := true.

(** A Python call either returns a value or raises. *)
Inductive result (A : Type) : Type :=
  | Ret (a : A)
  | Raise (e : exn).
Global Arguments Ret {A} a.
Global Arguments Raise {A} e.

(** A computation over the outside world (network, browser, file system). *)
Definition M (World A : Type) : Type := World -> result A * World.

Section Monad.
Context {World : Type}.

Definition ret {A} (a : A) : M World A := fun w => (Ret a, w).

Definition raise {A} (e : exn) : M World A := fun w => (Raise e, w).

Definition bind {A B} (m : M World A) (f : A -> M World B) : M World B :=
  fun w =>
    match m w with
    | (Ret a, w') => f a w'
    | (Raise e, w') => (Raise e, w')
    end.

(** A pure call that may raise. *)
Definition lift {A} (r : result A) : M World A := fun w => (r, w).

(** [try: body  except <class>: handler] where [catches] decides
    membership in the handled class. *)
Definition try_except {A} (body : M World A) (catches : exn -> bool)
    (handler : exn -> M World A) : M World A :=
  fun w =>
    match body w with
    | (Ret a, w') => (Ret a, w')
    | (Raise e, w') => if catches e then handler e w' else (Raise e, w')
    end.

(** [for x in xs: body x] *)
Fixpoint for_each {A} (xs : list A) (body : A -> M World unit) : M World unit :=
  match xs with
  | [] => ret tt
  | x :: xs' => bind (body x) (fun _ => for_each xs' body)
  end.
End Monad.

Notation "x <- m ;;; k" := (bind m (fun x => k))
  (at level 20, m at level 99, k at level 200, only parsing).
Notation "m ;;; k" := (bind m (fun _ => k))
  (at level 100, k at level 200, right associativity, only parsing).

(** ** The collaborators: HTTP client, XML parser, URL parser, browser
    driver and file system *)

(** The part of a [requests.Response] the scripts read. *)
Record response : Type := Response {
  status_code : Z;
  content : string
}.

(** [Response.raise_for_status] of the [requests] library raises [HTTPError]
    exactly for client errors (400..499) and server errors (500..599). *)
Definition raise_for_status (r : response) : result unit :=
  if bool_decide (400 ≤ status_code r < 600)%Z then Raise HTTPError else Ret tt.

(** The scripts handed to [driver.execute_script]. *)
Inductive script : Type :=
  | ScrollHeight                (* "return document.body.scrollHeight" *)
  | ScrollTo (y : Z)            (* f"window.scrollTo(0, {y})" *)
  | DispatchResize.             (* "window.dispatchEvent(new Event('resize'))" *)

(** What [execute_script] hands back: an [int], or anything else. *)
Inductive jsval : Type :=
  | JsInt (z : Z)
  | JsOther.

(** [range(0, stop, step)] for a positive [step]. *)
Definition py_range (stop step : Z) : list Z :=
  (fun i : nat => Z.of_nat i * step)%Z
    <$> seq 0 (Z.to_nat ((stop + step - 1) / step)).

(** [range(0, total_height, step)]: a [TypeError] unless the height is an
    [int]. *)
Definition scroll_positions (total_height : jsval) (step : Z) : result (list Z) :=
  match total_height with
  | JsInt h => Ret (py_range h step)
  | JsOther => Raise TypeError
  end.

(** [os.path.join(a, b)] on a POSIX system. *)
Definition os_path_join (a b : string) : string :=
  if Py.startswith "/" b then b
  else if bool_decide (a = "") || Py.startswith "/" (String.rev a) then a +:+ b
  else a +:+ "/" +:+ b.

(** The operations of the outside world the scripts call. *)
Class Platform (World : Type) : Type := {
  (** [requests.get(url, verify=False, timeout=...)] *)
  requests_get : string -> option Z -> M World response;
  (** the [.text] of every element of
      [BeautifulSoup(content, "lxml-xml").find_all("loc")], in document
      order *)
  find_all_loc : string -> result (list string);
  (** [urlparse(u).path] *)
  urlparse_path : string -> result string;
  (** [driver.get(url)] *)
  driver_get : string -> M World unit;
  (** [driver.find_element("xpath", xpath)], giving an element handle *)
  driver_find_element : string -> M World nat;
  (** [element.click()] *)
  element_click : nat -> M World unit;
  (** [driver.execute_script(script)] *)
  driver_execute_script : script -> M World jsval;
  (** [driver.execute_cdp_cmd("Page.captureScreenshot", {...})] *)
  driver_capture_screenshot : M World (gmap string string);
  (** [base64.b64decode(data)] *)
  b64decode : string -> result string;
  (** [open(path, mode)], giving a file handle *)
  open_file : string -> string -> M World nat;
  (** [f.write(data)] *)
  file_write : nat -> string -> M World unit;
  (** [f.close()], run when a [with] block is left *)
  file_close : nat -> M World unit;
  (** [os.makedirs(path, exist_ok=True)] *)
  os_makedirs : string -> M World unit
}.

(** ** Code shared by the two scripts *)

(** One row of the report: the dictionary appended to [report_entries]. *)
Record ReportEntry : Type := mkEntry {
  slug : string;
  path : string;
  source : option string;
  target : option string;
  source_failed : bool;
  target_failed : bool
}.

(** Truthiness of a value that is [None] or a [str]. *)
Definition truthy_opt (v : option string) : bool :=
  match v with
  | Some s => Py.truthy s
  | None => false
  end.

Section Common.
Context {World : Type} `{!Platform World}.

(** [with open(path, mode) as f: body f]: the file is closed on the way
    out, whether [body] returned or raised. *)
Definition with_open {A} (file mode : string) (body : nat -> M World A)
    : M World A :=
  f <- open_file file mode;;;
  fun w =>
    match body f w with
    | (Ret a, w') => (file_close f;;; ret a) w'
    | (Raise e, w') => (file_close f;;; raise e) w'
    end.

(** The inner [try] of [take_fullpage_screenshot]: click the cookie
    banner's accept button when there is one, and carry on otherwise. *)
Definition dismiss_cookie_banner (xpath : string) : M World unit :=
  try_except
    (accept_button <- driver_find_element xpath;;;
     element_click accept_button)
    is_Exception
    (fun _ => ret tt).

(** The body of the outer [try] of [take_fullpage_screenshot], up to its
    [return True].  The scripts differ in the XPath of the accept button
    and in the scroll step. *)
Definition capture_page (xpath : string) (step : Z)
    (url output_path : string) : M World unit :=
  driver_get url;;;
  dismiss_cookie_banner xpath;;;
  total_height <- driver_execute_script ScrollHeight;;;
  ys <- lift (scroll_positions total_height step);;;
  for_each ys (fun y => driver_execute_script (ScrollTo y);;; ret tt);;;
  driver_execute_script (ScrollTo 0);;;
  driver_execute_script DispatchResize;;;
  screenshot <- driver_capture_screenshot;;;
  with_open output_path "wb" (fun f =>
    data <- lift (match screenshot !! "data" with
                  | Some d => Ret d
                  | None => Raise KeyError
                  end);;;
    png <- lift (b64decode data);;;
    file_write f png).

(** [{urlparse(u).path: u for u in urls}], built left to right into [m]. *)
Fixpoint path_map (urls : list string) (m : gmap string string)
    : result (gmap string string) :=
  match urls with
  | [] => Ret m
  | u :: urls' =>
      match urlparse_path u with
      | Ret p => path_map urls' (<[p := u]> m)
      | Raise e => Raise e
      end
  end.

(** [sorted(set(source_map.keys()).union(set(target_map.keys())))] *)
Definition all_paths (source_map target_map : gmap string string)
    : list string :=
  merge_sort String.le (elements (dom source_map ∪ dom target_map)).

(** [url and take_fullpage_screenshot(url, img)] in the baseline,
    [if url: success = take_fullpage_screenshot(url, img)] with a [False]
    default in the variant: the capture runs only for a truthy URL, and
    the outcome is used only through its truth value. *)
Definition capture_side (take : string -> string -> M World bool)
    (url : option string) (img : string) : M World bool :=
  if truthy_opt url then take (default "" url) img else ret false.

(** The body of the [for path in all_paths] loop. *)
Definition compare_page (report_dir : string)
    (take : string -> string -> M World bool)
    (source_map target_map : gmap string string) (p : string)
    : M World ReportEntry :=
  let slug := get_path_slug p in
  let page_dir := os_path_join report_dir slug in
  os_makedirs page_dir;;;
  let source_img := os_path_join page_dir "source.png" in
  let target_img := os_path_join page_dir "target.png" in
  let src_url := source_map !! p in
  let tgt_url := target_map !! p in
  source_success <- capture_side take src_url source_img;;;
  target_success <- capture_side take tgt_url target_img;;;
  ret {| slug := slug;
         path := p;
         source := if source_success then Some (slug +:+ "/source.png")
                   else None;
         target := if target_success then Some (slug +:+ "/target.png")
                   else None;
         source_failed := negb source_success;
         target_failed := negb target_success |}.

(** The [for path in all_paths] loop, appending to [report_entries]. *)
Fixpoint compare_pages (report_dir : string)
    (take : string -> string -> M World bool)
    (source_map target_map : gmap string string)
    (paths : list string) (report_entries : list ReportEntry)
    : M World (list ReportEntry) :=
  match paths with
  | [] => ret report_entries
  | p :: paths' =>
      entry <- compare_page report_dir take source_map target_map p;;;
      compare_pages report_dir take source_map target_map paths'
        (report_entries ++ [entry])
  end.

(** The lines appended to [html] for one entry. *)
Definition entry_html (entry : ReportEntry) : list string :=
  [ "<div class='page'><h2>" +:+ path entry +:+ "</h2>";
    "<div><label><input type='checkbox'/> Pass</label><label><input type='checkbox'/> Fail</label></div>";
    if truthy_opt (source entry)
    then "<img src='" +:+ default "" (source entry) +:+ "' alt='Source'>"
    else "<p class='missing'>❌ Source page not available</p>";
    if truthy_opt (target entry)
    then "<img src='" +:+ default "" (target entry) +:+ "' alt='Target'>"
    else "<p class='missing'>❌ Target page not available</p>";
    "</div>" ].

(** The list [html] when the loop of [generate_html_report] is over and
    the closing line has been appended.  The scripts differ in the
    document title. *)
Definition report_html (title : string) (entries : list ReportEntry)
    : list string :=
  [ "<html><head><title>" +:+ title +:+ "</title>";
    "<style>body{font-family:sans-serif}img{max-width:45%;border:1px solid #ccc;margin:10px}div.page{margin-bottom:40px;}label{margin-right:20px} .missing{color:red;}</style>";
    "</head><body>";
    "<h1>Visual Regression Report</h1>" ]
  ++ concat (entry_html <$> entries)
  ++ [ "</body></html>" ].

(** [generate_html_report(entries)]: the document is written to
    [index.html]; a failure to write is swallowed. *)
Definition generate_html_report (report_dir title : string)
    (entries : list ReportEntry) : M World unit :=
  let html := report_html title entries in
  try_except
    (with_open (os_path_join report_dir "index.html") "w" (fun f =>
       file_write f (String.concat (String "010" "") html)))
    is_Exception
    (fun _ => ret tt).
End Common.

(** ** The baseline script, [pythonregression.py] *)

Module Baseline.

Definition SOURCE_SITE : string := "https://bumperdocbrooklyn.com".
Definition TARGET_SITE : string := "https://staging2.bumperdocbrooklyn.com".
Definition SOURCE_SITEMAP_URL : string := SOURCE_SITE +:+ "/page-sitemap.xml".
Definition TARGET_SITEMAP_URL : string := TARGET_SITE +:+ "/page-sitemap.xml".
Definition REPORT_DIR : string := "regression_report_bumperdoc".
Definition RETRY_COUNT : nat := 2.

(** The XPath of the cookie banner's accept button. *)
Definition ACCEPT_XPATH : string :=
  "//button[contains(text(), 'Accept') or contains(text(), 'accept')]".

Section Script.
Context {World : Type} `{!Platform World}.

(** [get_sitemap_urls(sitemap_url)] *)
Definition get_sitemap_urls (sitemap_url : string) : M World (list string) :=
  try_except
    (response <- requests_get sitemap_url (Some 15%Z);;;
     lift (raise_for_status response);;;
     locs <- lift (find_all_loc (content response));;;
     let urls := Py.strip_ws <$> locs in
     match urls with
     | [] => raise ValueError
     | _ :: _ => ret urls
     end)
    is_Exception
    (fun _ => ret []).

(** The [for attempt in range(1, RETRY_COUNT + 1)] loop of
    [take_fullpage_screenshot] and the [return False] after it.  The
    [try] yields [true] when the function returns from inside it and
    [false] when the handler ran and the loop goes on. *)
Fixpoint attempt_loop (attempts : list nat) (url output_path : string)
    : M World bool :=
  match attempts with
  | [] => ret false
  | _ :: attempts' =>
      returned <- try_except
                    (capture_page ACCEPT_XPATH 400 url output_path;;;
                     ret true)
                    is_WebDriverException
                    (fun _ => ret false);;;
      if returned : bool then ret true
      else attempt_loop attempts' url output_path
  end.

(** [take_fullpage_screenshot(url, output_path)] *)
Definition take_fullpage_screenshot (url output_path : string)
    : M World bool :=
  attempt_loop (seq 1 RETRY_COUNT) url output_path.

(** The homepage fallback applied to an empty [target_urls]. *)
Definition with_fallback (target_urls : list string) : list string :=
  match target_urls with
  | [] => [TARGET_SITE +:+ "/"]
  | _ :: _ => target_urls
  end.

(** [run_test()].  The function hands [report_entries] to
    [generate_html_report] and returns nothing; the embedding returns
    the entries so that they can be spoken about. *)
Definition run_test : M World (list ReportEntry) :=
  source_urls <- get_sitemap_urls SOURCE_SITEMAP_URL;;;
  target_urls <- get_sitemap_urls TARGET_SITEMAP_URL;;;
  let target_urls := with_fallback target_urls in
  source_map <- lift (path_map source_urls ∅);;;
  target_map <- lift (path_map target_urls ∅);;;
  report_entries <-
    compare_pages REPORT_DIR take_fullpage_screenshot source_map target_map
      (all_paths source_map target_map) [];;;
  generate_html_report REPORT_DIR "Visual Regression Report"
    report_entries;;;
  ret report_entries.
End Script.

End Baseline.

(** ** The variant script, "SELENIUM VERSION WITH IMPROVED RENDERING" *)

Module Variant.

Definition SOURCE_SITE : string := "https://bumperdocbrooklyn.com".
Definition TARGET_SITE : string := "https://staging2.bumperdocbrooklyn.com".
Definition SOURCE_SITEMAP_URL : string := SOURCE_SITE +:+ "/page-sitemap.xml".
Definition TARGET_SITEMAP_URL : string := TARGET_SITE +:+ "/page-sitemap.xml".
Definition REPORT_DIR : string := "regression_reportforbumperdoc2".

(** The XPath of the cookie banner's accept button. *)
Definition ACCEPT_XPATH : string := "//button[contains(text(), 'Accept')]".

Section Script.
Context {World : Type} `{!Platform World}.

(** [get_sitemap_urls(sitemap_url)] *)
Definition get_sitemap_urls (sitemap_url : string) : M World (list string) :=
  try_except
    (response <- requests_get sitemap_url None;;;
     lift (raise_for_status response);;;
     locs <- lift (find_all_loc (content response));;;
     let urls := Py.strip_ws <$> locs in
     ret urls)
    is_Exception
    (fun _ => ret []).

(** [take_fullpage_screenshot(url, output_path)]: one attempt, and every
    [Exception] is answered with [False]. *)
Definition take_fullpage_screenshot (url output_path : string)
    : M World bool :=
  try_except
    (capture_page ACCEPT_XPATH 500 url output_path;;;
     ret true)
    is_Exception
    (fun _ => ret false).

(** [run_test()], returning [report_entries] as in the baseline. *)
Definition run_test : M World (list ReportEntry) :=
  source_urls <- get_sitemap_urls SOURCE_SITEMAP_URL;;;
  target_urls <- get_sitemap_urls TARGET_SITEMAP_URL;;;
  source_map <- lift (path_map source_urls ∅);;;
  target_map <- lift (path_map target_urls ∅);;;
  report_entries <-
    compare_pages REPORT_DIR take_fullpage_screenshot source_map target_map
      (all_paths source_map target_map) [];;;
  generate_html_report REPORT_DIR "Regression Report" report_entries;;;
  ret report_entries.
End Script.

End Variant.

(** ** The execution blocks of the two scripts *)

Section Execution.
Context {World : Type} `{!Platform World}.

(** [try: body  finally: final]: [final] runs whether [body] returned or
    raised, and an exception of [final] takes the place of the outcome of
    [body]. *)
Definition try_finally {A} (body : M World A) (final : M World unit)
    : M World A :=
  fun w =>
    match body w with
    | (r, w1) =>
        match final w1 with
        | (Ret _, w2) => (r, w2)
        | (Raise e, w2) => (Raise e, w2)
        end
    end.

(** The block at the end of [pythonregression.py]:
    [try: run_test()  except Exception: ...  finally: driver.quit()].
    The call [driver.quit()] is the argument [driver_quit]. *)
Definition baseline_execution (driver_quit : M World unit) : M World unit :=
  try_finally
    (try_except (Baseline.run_test;;; ret tt) is_Exception (fun _ => ret tt))
    driver_quit.

(** The same block at the end of the variant script. *)
Definition variant_execution (driver_quit : M World unit) : M World unit :=
  try_finally
    (try_except (Variant.run_test;;; ret tt) is_Exception (fun _ => ret tt))
    driver_quit.
End Execution.

(** ** A simulated outside world

    An executable instance of [Platform], used to run the scripts on
    concrete inputs.  A [scenario] fixes how the outside world answers. *)

Module Sim.

Record scenario : Type := Scenario {
  (** the response served for each URL; any other URL is a connection
      error *)
  served : list (string * response);
  (** pages at which every navigation fails in the automation layer *)
  unreachable : list string;
  (** pages at which only the first navigation fails *)
  flaky : list string;
  (** files that cannot be opened for writing *)
  unwritable : list string
}.

Record world : Type := World {
  (** the pages navigated to, newest first *)
  history : list string;
  (** the files opened so far; a handle is an index from the end *)
  handles : list string;
  (** the content of the files written *)
  disk : gmap string string
}.

Definition start : world :=
  {| history := []; handles := []; disk := ∅ |}.

(** The texts between [<loc>] and [</loc>], in document order. *)
Fixpoint scan_locs (s : string) (skip : nat) (cur : option string)
    : list string :=
  match s with
  | "" => []
  | String c s' =>
      match skip with
      | S k => scan_locs s' k cur
      | O =>
          match cur with
          | None =>
              if Py.startswith "<loc>" s then scan_locs s' 4 (Some "")
              else scan_locs s' 0 None
          | Some acc =>
              if Py.startswith "</loc>" s
              then String.rev acc :: scan_locs s' 5 None
              else scan_locs s' 0 (Some (String c acc))
          end
      end
  end.

Definition is_alpha (c : ascii) : bool :=
  let n := nat_of_ascii c in
  ((65 <=? n) && (n <=? 90) || (97 <=? n) && (n <=? 122))%nat.

Definition is_scheme_char (c : ascii) : bool :=
  let n := nat_of_ascii c in
  is_alpha c || ((48 <=? n) && (n <=? 57))%nat
  || bool_decide (c ∈ ["+"; "-"; "."]%char).

(** What follows the first [:] when only scheme characters precede it. *)
Fixpoint after_scheme (s : string) : option string :=
  match s with
  | "" => None
  | String c s' =>
      if Ascii.eqb c ":" then Some s'
      else if is_scheme_char c then after_scheme s' else None
  end.

Fixpoint drop_until (stop : ascii -> bool) (s : string) : string :=
  match s with
  | "" => ""
  | String c s' => if stop c then s else drop_until stop s'
  end.

Fixpoint take_until (stop : ascii -> bool) (s : string) : string :=
  match s with
  | "" => ""
  | String c s' => if stop c then "" else String c (take_until stop s')
  end.

(** The path of a URL of the shape [scheme://host/path?query#fragment],
    split the way [urllib.parse.urlsplit] splits it. *)
Definition url_path (u : string) : string :=
  let rest :=
    match u with
    | String c _ => if is_alpha c then default u (after_scheme u) else u
    | "" => ""
    end in
  let rest :=
    if Py.startswith "//" rest
    then drop_until (fun c => bool_decide (c ∈ ["/"; "?"; "#"]%char))
           (Py.drop 2 rest)
    else rest in
  take_until (fun c => bool_decide (c ∈ ["?"; "#"]%char)) rest.

Section Instance.
Variable sc : scenario.

Definition sim_requests_get (url : string) (timeout : option Z)
    : M world response :=
  match list_find (fun kv => kv.1 = url) (served sc) with
  | Some (_, (_, r)) => ret r
  | None => raise RequestException
  end.

Definition sim_driver_get (url : string) : M world unit := fun w =>
  let w' := {| history := url :: history w;
               handles := handles w; disk := disk w |} in
  if bool_decide (url ∈ unreachable sc) then (Raise WebDriverException, w')
  else if bool_decide (url ∈ flaky sc) && bool_decide (url ∉ history w)
  then (Raise WebDriverException, w')
  else (Ret tt, w').

Definition sim_driver_execute_script (s : script) : M world jsval :=
  match s with
  | ScrollHeight => ret (JsInt 900)
  | _ => ret JsOther
  end.

Definition sim_open_file (file mode : string) : M world nat := fun w =>
  if bool_decide (file ∈ unwritable sc) then (Raise OSError, w)
  else (Ret (length (handles w)),
        {| history := history w; handles := handles w ++ [file];
           disk := <[file := ""]> (disk w) |}).

Definition sim_file_write (f : nat) (data : string) : M world unit := fun w =>
  match handles w !! f with
  | Some file =>
      (Ret tt, {| history := history w; handles := handles w;
                  disk := <[file := default "" (disk w !! file) +:+ data]>
                            (disk w) |})
  | None => (Raise ValueError, w)
  end.

(** The simulated browser shows no cookie banner, every screenshot
    carries the same data, base64 decoding is not modelled (the data is
    written as it is), and directories can always be created. *)
Definition platform : Platform world := {|
  requests_get := sim_requests_get;
  find_all_loc := fun content => Ret (scan_locs content 0 None);
  urlparse_path := fun u => Ret (url_path u);
  driver_get := sim_driver_get;
  driver_find_element := fun _ => raise WebDriverException;
  element_click := fun _ => ret tt;
  driver_execute_script := sim_driver_execute_script;
  driver_capture_screenshot := ret {[ "data" := "iVBORw0KGgo=" ]};
  b64decode := fun data => Ret data;
  open_file := sim_open_file;
  file_write := sim_file_write;
  file_close := fun _ => ret tt;
  os_makedirs := fun _ => ret tt
|}.
End Instance.

(** A sitemap document listing the given URLs. *)
Definition sitemap_xml (urls : list string) : string :=
  "<urlset>"
  +:+ String.concat "" ((fun u => "<url><loc>" +:+ u +:+ "</loc></url>") <$> urls)
  +:+ "</urlset>".
End Sim.

(** ** Scenarios for the simulated world *)

Module Scenarios.
Import Sim.

Definition src (p : string) : string := Baseline.SOURCE_SITE +:+ p.
Definition tgt (p : string) : string := Baseline.TARGET_SITE +:+ p.

(** The source site lists [/] and [/about], the target site [/about] and
    [/contact].  The target's [/contact] cannot be loaded, and the
    source's [/] loads at the second attempt. *)
Definition pages : scenario :=
  {| served :=
       [ (Baseline.SOURCE_SITEMAP_URL,
          Response 200 (sitemap_xml [src "/"; src "/about"]));
         (Baseline.TARGET_SITEMAP_URL,
          Response 200 (sitemap_xml [tgt "/about"; tgt "/contact"])) ];
     unreachable := [tgt "/contact"];
     flaky := [src "/"];
     unwritable := [] |}.

(** The target sitemap cannot be fetched; the source lists [/about]. *)
Definition target_down : scenario :=
  {| served :=
       [ (Baseline.SOURCE_SITEMAP_URL,
          Response 200 (sitemap_xml [src "/about"])) ];
     unreachable := [];
     flaky := [];
     unwritable := [] |}.

(** The source sitemap is served with status 300 (Multiple Choices), a
    status outside 2xx that [requests] hands back as it is. *)
Definition multiple_choices : scenario :=
  {| served :=
       [ (Baseline.SOURCE_SITEMAP_URL,
          Response 300 (sitemap_xml [src "/"])) ];
     unreachable := [];
     flaky := [];
     unwritable := [] |}.

(** The image file of the source home page cannot be written. *)
Definition read_only_image : scenario :=
  {| served :=
       [ (Baseline.SOURCE_SITEMAP_URL,
          Response 200 (sitemap_xml [src "/"; src "/about"]));
         (Baseline.TARGET_SITEMAP_URL,
          Response 200 (sitemap_xml [tgt "/"; tgt "/about"])) ];
     unreachable := [];
     flaky := [];
     unwritable := ["regression_report_bumperdoc/home/source.png";
                    "regression_reportforbumperdoc2/home/source.png"] |}.
End Scenarios.

(** ** Further simulated worlds *)

Module Worlds.

(** Neither sitemap can be fetched. *)
Definition offline : Sim.scenario :=
  {| Sim.served := [];
     Sim.unreachable := [];
     Sim.flaky := [];
     Sim.unwritable := [] |}.

(** The simulated world of a scenario, except that no directory can be
    made. *)
Definition without_directories (sc : Sim.scenario) : Platform Sim.world :=
  {| requests_get := Sim.sim_requests_get sc;
     find_all_loc := fun content => Ret (Sim.scan_locs content 0 None);
     urlparse_path := fun u => Ret (Sim.url_path u);
     driver_get := Sim.sim_driver_get sc;
     driver_find_element := fun _ => raise WebDriverException;
     element_click := fun _ => ret tt;
     driver_execute_script := Sim.sim_driver_execute_script;
     driver_capture_screenshot := ret {[ "data" := "iVBORw0KGgo=" ]};
     b64decode := fun data => Ret data;
     open_file := Sim.sim_open_file sc;
     file_write := Sim.sim_file_write;
     file_close := fun _ => ret tt;
     os_makedirs := fun _ => raise OSError |}.

(** The call [driver.quit()] of the simulated browser: the history of the
    session is dropped. *)
Definition sim_driver_quit : M Sim.world unit := fun w =>
  (Ret tt, {| Sim.history := []; Sim.handles := Sim.handles w;
              Sim.disk := Sim.disk w |}).
End Worlds.

(** ** Vocabulary of the properties *)

(** Paths of the plain shape: a slash followed by a non-empty string that
    neither begins nor ends with a slash and holds no underscore. *)
Definition plain_path (p : string) : bool :=
  match p with
  | String c q =>
      Ascii.eqb c "/" && Py.truthy q && bool_decide (Py.strip "/" q = q)
      && negb (Py.contains "_" q)
  | "" => false
  end.

(** The two "not available" markers of the report. *)
Definition SOURCE_MISSING : string :=
  "<p class='missing'>❌ Source page not available</p>".
Definition TARGET_MISSING : string :=
  "<p class='missing'>❌ Target page not available</p>".

Section Vocabulary.
Context {World : Type} `{!Platform World}.

(** [p] is the path of one of the URLs of [urls]: a path key of that
    site. *)
Definition path_of (urls : list string) (p : string) : Prop :=
  ∃ u, u ∈ urls ∧ urlparse_path u = Ret p.

(** The per-page directory and the two image files of a path. *)
Definition page_dir (report_dir p : string) : string :=
  os_path_join report_dir (get_path_slug p).
Definition source_img (report_dir p : string) : string :=
  os_path_join (page_dir report_dir p) "source.png".
Definition target_img (report_dir p : string) : string :=
  os_path_join (page_dir report_dir p) "target.png".

(** The entry [compare_page] builds from the two capture outcomes. *)
Definition entry_of (p : string) (source_success target_success : bool)
    : ReportEntry :=
  {| slug := get_path_slug p;
     path := p;
     source := if source_success
               then Some (get_path_slug p +:+ "/source.png") else None;
     target := if target_success
               then Some (get_path_slug p +:+ "/target.png") else None;
     source_failed := negb source_success;
     target_failed := negb target_success |}.

(** [e] is the entry some run of the loop body made for [p]. *)
Definition made_for (report_dir : string)
    (take : string → string → M World bool)
    (source_map target_map : gmap string string)
    (p : string) (e : ReportEntry) : Prop :=
  ∃ w w', compare_page report_dir take source_map target_map p w
            = (Ret e, w').

(** An image is absent exactly when its failure flag is set. *)
Definition flags_agree (e : ReportEntry) : Prop :=
  (source e = None ↔ source_failed e = true)
  ∧ (target e = None ↔ target_failed e = true).

(** [n] capture attempts in a row, starting in world [w], each end in a
    [WebDriverException]; [w'] is the world after the last of them. *)
Fixpoint attempts_fail (xpath : string) (step : Z) (n : nat)
    (url output_path : string) (w w' : World) : Prop :=
  match n with
  | O => w' = w
  | S n' =>
      ∃ w1, capture_page xpath step url output_path w
              = (Raise WebDriverException, w1)
            ∧ attempts_fail xpath step n' url output_path w1 w'
  end.

(** [paths] lists, in ascending order and each once, exactly the paths of
    the URLs of [source_urls] and of [target_urls]. *)
Definition sorted_union (paths source_urls target_urls : list string)
    : Prop :=
  StronglySorted String.le paths
  ∧ NoDup paths
  ∧ ∀ p, p ∈ paths ↔ path_of source_urls p ∨ path_of target_urls p.

(** What a sitemap fetcher [get] that calls [requests.get] with [timeout]
    does for every sitemap URL and every state of the outside world:
    - a response whose status is not an error status and whose document
      holds the [<loc>] texts [locs] gives those texts, stripped, in
      document order (none for a document without [<loc>]);
    - a network error, an error status (400..599) and a parse failure
      each give no URL;
    - in every case the fetcher returns. *)
Definition fetcher_contract (get : string → M World (list string))
    (timeout : option Z) : Prop :=
  (∀ url w r w1 locs,
     requests_get url timeout w = (Ret r, w1) →
     ¬ (400 ≤ status_code r < 600)%Z →
     find_all_loc (content r) = Ret locs →
     get url w = (Ret (Py.strip_ws <$> locs), w1)
     ∧ length (Py.strip_ws <$> locs) = length locs)
  ∧ (∀ url w e w1,
       requests_get url timeout w = (Raise e, w1) →
       get url w = (Ret [], w1))
  ∧ (∀ url w r w1,
       requests_get url timeout w = (Ret r, w1) →
       (400 ≤ status_code r < 600)%Z →
       get url w = (Ret [], w1))
  ∧ (∀ url w r w1 e,
       requests_get url timeout w = (Ret r, w1) →
       find_all_loc (content r) = Raise e →
       get url w = (Ret [], w1))
  ∧ (∀ url w, ∃ urls w', get url w = (Ret urls, w')).

(** How a script reports a side whose capture failed, where [fails u out
    w w'] says that the capture of [u] into [out], started in world [w],
    failed on every attempt and left the world [w'].  The source capture
    starts once the page directory is made, the target capture once the
    source side is done.  The entry then has no image for that side and
    its failure flag set, and the entry's block of the report shows the
    "not available" marker of that side on the line where the image
    would be. *)
Definition failed_side_reported (report_dir : string)
    (take : string → string → M World bool)
    (fails : string → string → World → World → Prop) : Prop :=
  ∀ source_map target_map p u w w0 e w',
    os_makedirs (page_dir report_dir p) w = (Ret tt, w0) →
    compare_page report_dir take source_map target_map p w = (Ret e, w') →
    Py.truthy u = true →
    (∀ w1,
       source_map !! p = Some u →
       fails u (source_img report_dir p) w0 w1 →
       source e = None ∧ source_failed e = true
       ∧ entry_html e !! 2%nat = Some SOURCE_MISSING)
    ∧ (∀ source_success w1 w2,
         capture_side take (source_map !! p) (source_img report_dir p) w0
           = (Ret source_success, w1) →
         target_map !! p = Some u →
         fails u (target_img report_dir p) w1 w2 →
         target e = None ∧ target_failed e = true
         ∧ entry_html e !! 3%nat = Some TARGET_MISSING).

(** The one attempt of the variant ends in an exception. *)
Definition attempt_fails (xpath : string) (step : Z)
    (url output_path : string) (w w' : World) : Prop :=
  ∃ e, capture_page xpath step url output_path w = (Raise e, w').
End Vocabulary.

(** ** Vocabulary of a whole run *)

Section RunVocabulary.
Context {World : Type} `{!Platform World}.

(** The pages the loop of [run_test] starts on, each with the world the
    loop body starts in: the first page in the world the loop is entered
    in, each later page in the world the page before it left.  The list
    ends with the page whose loop body raised, when there is one. *)
Fixpoint page_starts (report_dir : string)
    (take : string → string → M World bool)
    (source_map target_map : gmap string string)
    (paths : list string) (w : World) : list (string * World) :=
  match paths with
  | [] => []
  | p :: paths' =>
      (p, w)
      :: match compare_page report_dir take source_map target_map p w with
         | (Ret _, w1) =>
             page_starts report_dir take source_map target_map paths' w1
         | (Raise _, _) => []
         end
  end.

(** What a run that worked on the mappings [source_map] and [target_map],
    entered its loop in world [w2], produced [entries] and ended in world
    [w'] did about failed captures, where [fails u out w w'] says that
    the capture of [u] into [out], started in world [w], failed on every
    attempt and left the world [w'].
    - The entries are those of the loop, and they are the ones handed to
      [generate_html_report], whose end is the end of the run; when
      [index.html] can be opened, that end is reached by writing the
      lines of the document made from these entries, joined by line
      feeds, and closing the file.
    - The page the loop starts on in the [i]-th place has the [i]-th
      entry, whose block of lines is part of that document.
    - When the source capture of that page, which starts once the page
      directory is made, fails on every attempt, the entry has no source
      image, its source flag is set, and the source line of its block is
      the "not available" marker; likewise for the target capture, which
      starts once the source side is done. *)
Definition failed_sides_in_report (report_dir title : string)
    (take : string → string → M World bool)
    (fails : string → string → World → World → Prop)
    (source_map target_map : gmap string string)
    (w2 : World) (entries : list ReportEntry) (w' : World) : Prop :=
  ∃ w3,
    compare_pages report_dir take source_map target_map
      (all_paths source_map target_map) [] w2 = (Ret entries, w3)
    ∧ generate_html_report report_dir title entries w3 = (Ret tt, w')
    ∧ (∀ f w4,
         open_file (os_path_join report_dir "index.html") "w" w3
           = (Ret f, w4) →
         w' = (file_close f
                 (file_write f
                    (String.concat (String "010" "")
                       (report_html title entries)) w4).2).2)
    ∧ ∀ i p wi w0 u,
        page_starts report_dir take source_map target_map
          (all_paths source_map target_map) w2 !! i = Some (p, wi) →
        os_makedirs (page_dir report_dir p) wi = (Ret tt, w0) →
        Py.truthy u = true →
        ∃ e,
          entries !! i = Some e
          ∧ path e = p
          ∧ (∃ before after : list string,
               report_html title entries
               = (before ++ entry_html e ++ after)%list)
          ∧ (∀ w1,
               source_map !! p = Some u →
               fails u (source_img report_dir p) w0 w1 →
               source e = None ∧ source_failed e = true
               ∧ entry_html e !! 2%nat = Some SOURCE_MISSING)
          ∧ (∀ source_success w1 w1',
               capture_side take (source_map !! p)
                 (source_img report_dir p) w0 = (Ret source_success, w1) →
               target_map !! p = Some u →
               fails u (target_img report_dir p) w1 w1' →
               target e = None ∧ target_failed e = true
               ∧ entry_html e !! 3%nat = Some TARGET_MISSING).
End RunVocabulary.

(** ** Vocabulary of the scroll loop *)

Section ScrollVocabulary.
Context {World : Type} `{!Platform World}.

(** The calls [driver.execute_script(f"window.scrollTo(0, {y})")] for the
    positions [ys], made one after the other from world [w], all returned
    and left the world [w']. *)
Fixpoint scrolled (ys : list Z) (w w' : World) : Prop :=
  match ys with
  | [] => w' = w
  | y :: ys' =>
      ∃ r w1, driver_execute_script (ScrollTo y) w = (Ret r, w1)
              ∧ scrolled ys' w1 w'
  end.

(** The steps of the capture procedure that follow its scroll loop: back
    to the top, the resize event, the screenshot and the writing of the
    image file. *)
Definition finish_capture (output_path : string) : M World unit :=
  driver_execute_script (ScrollTo 0);;;
  driver_execute_script DispatchResize;;;
  screenshot <- driver_capture_screenshot;;;
  with_open output_path "wb" (fun f =>
    data <- lift (match screenshot !! "data" with
                  | Some d => Ret d
                  | None => Raise KeyError
                  end);;;
    png <- lift (b64decode data);;;
    file_write f png).
End ScrollVocabulary.

(** * Properties *)

(** ** The definitions at work *)

Example slug_examples :
  get_path_slug <$> [""; "/"; "/about"; "/a/b/"; "//a//b//"; "/a_b"; "home"]
  = ["home"; "home"; "about"; "a_b"; "a__b"; "a_b"; "home"].
Proof. reflexivity. Qed.

Example strip_ws_example :
  Py.strip_ws
    (String "010" "  https://a.org/b "
     +:+ String (ascii_of_nat 194) (String (ascii_of_nat 160) ""))
  = "https://a.org/b".
Proof. vm_compute. reflexivity. Qed.

Example py_range_examples :
  py_range 401 400 = [0; 400]%Z ∧ py_range 400 400 = [0%Z]
  ∧ py_range 0 400 = [] ∧ py_range (-5) 400 = [].
Proof. vm_compute. done. Qed.

Example os_path_join_examples :
  os_path_join "regression_report_bumperdoc" "home"
  = "regression_report_bumperdoc/home"
  ∧ os_path_join "a/" "b" = "a/b" ∧ os_path_join "a" "/b" = "/b".
Proof. vm_compute. done. Qed.

Example scan_locs_example :
  Sim.scan_locs (Sim.sitemap_xml ["https://a.org/"; "https://a.org/x"]) 0 None
  = ["https://a.org/"; "https://a.org/x"].
Proof. vm_compute. reflexivity. Qed.

Example url_path_examples :
  Sim.url_path
    <$> ["https://a.org/"; "https://a.org/x/y?q=1#f"; "https://a.org"; "/p"]
  = ["/"; "/x/y"; ""; "/p"].
Proof. vm_compute. reflexivity. Qed.

(** The end-to-end scenario of the specification: the source lists [/] and
    [/about], the target [/about] and [/contact].  The baseline loads the
    source [/] at its second attempt; the variant, with one attempt, reports
    it as failed. *)
Example pages_runs :
  (Baseline.run_test (Platform0 := Sim.platform Scenarios.pages) Sim.start).1
  = Ret [entry_of "/" true false; entry_of "/about" true true;
         entry_of "/contact" false false]
  ∧ (Variant.run_test (Platform0 := Sim.platform Scenarios.pages) Sim.start).1
    = Ret [entry_of "/" false false; entry_of "/about" true true;
           entry_of "/contact" false false].
Proof. split; vm_compute; reflexivity. Qed.

Example pages_report_blocks :
  filter (fun l => Py.startswith "<div class='page'>" l = true)
    (report_html "Visual Regression Report"
       [entry_of "/" true false; entry_of "/about" true true;
        entry_of "/contact" false false])
  = ["<div class='page'><h2>/</h2>"; "<div class='page'><h2>/about</h2>";
     "<div class='page'><h2>/contact</h2>"].
Proof. vm_compute. reflexivity. Qed.

(** ** Strings and slugs *)

Section Strings.
Implicit Types (c a : ascii) (s : string).

Lemma truthy_true s : Py.truthy s = true ↔ s ≠ "".
Proof. by destruct s. Qed.

Lemma contains_replace old new s :
  old ≠ new → Py.contains old (Py.replace old new s) = false.
Proof.
  intros Hne. induction s as [|a s IH]; simpl; [done|].
  rewrite IH, orb_false_r.
  destruct (Ascii.eqb_spec a old) as [->|Ha].
  - apply Ascii.eqb_neq. congruence.
  - by apply Ascii.eqb_neq.
Qed.

Lemma lstrip_absent c s : Py.contains c s = false → Py.lstrip c s = s.
Proof.
  destruct s as [|a s]; simpl; [done|].
  intros [-> _]%orb_false_elim. done.
Qed.

Lemma rstrip_absent c s : Py.contains c s = false → Py.rstrip c s = s.
Proof.
  induction s as [|a s IH]; simpl; [done|].
  intros [Ha Hs]%orb_false_elim. rewrite IH, Ha by done.
  by destruct s.
Qed.

Lemma strip_absent c s : Py.contains c s = false → Py.strip c s = s.
Proof.
  intros H. unfold Py.strip. rewrite lstrip_absent by done.
  by apply rstrip_absent.
Qed.

Lemma replace_absent old new s :
  Py.contains old s = false → Py.replace old new s = s.
Proof.
  induction s as [|a s IH]; simpl; [done|].
  intros [-> Hs]%orb_false_elim. by rewrite IH.
Qed.

Lemma replace_empty old new s : Py.replace old new s = "" → s = "".
Proof. by destruct s. Qed.

(** Replacing [old] by [new] loses nothing on strings that hold no [new]. *)
Lemma replace_inj old new s1 s2 :
  Py.contains new s1 = false → Py.contains new s2 = false →
  Py.replace old new s1 = Py.replace old new s2 → s1 = s2.
Proof.
  revert s2. induction s1 as [|a1 s1 IH]; intros [|a2 s2]; simpl; try done.
  intros [Ha1 Hs1]%orb_false_elim [Ha2 Hs2]%orb_false_elim [= Ha Hs].
  f_equal; [|by apply IH].
  apply Ascii.eqb_neq in Ha1, Ha2.
  destruct (Ascii.eqb_spec a1 old), (Ascii.eqb_spec a2 old); congruence.
Qed.

(** A slug holds no slash and is never empty. *)
Lemma slug_no_slash s : Py.contains "/" (get_path_slug s) = false.
Proof.
  unfold get_path_slug, Py.or_else.
  destruct (Py.truthy _); [|done]. by apply contains_replace.
Qed.

Lemma slug_nonempty s : get_path_slug s ≠ "".
Proof.
  unfold get_path_slug, Py.or_else.
  destruct (Py.truthy _) eqn:H; [|done]. by apply truthy_true.
Qed.

Lemma slug_of_slashless s :
  Py.contains "/" s = false → s ≠ "" → get_path_slug s = s.
Proof.
  intros Hs Hne. unfold get_path_slug, Py.or_else.
  rewrite strip_absent, replace_absent by done.
  by apply truthy_true in Hne as ->.
Qed.
Lemma drop_length n s : String.length (Py.drop n s) = (String.length s - n)%nat.
Proof.
  revert s. induction n as [|n IH]; intros [|a s]; simpl; [done..|apply IH].
Qed.

Lemma startswith_empty p : Py.startswith p "" = true → p = "".
Proof. by destruct p. Qed.

(** The fuel given to [lstrip_ws_aux] is enough: with at least the length
    of the string, no white-space sequence is left at the front. *)
Lemma lstrip_ws_aux_done ws fuel s :
  (∀ w, In w ws → w ≠ "") →
  (String.length s ≤ fuel)%nat →
  List.find (fun w => Py.startswith w (Py.lstrip_ws_aux ws fuel s)) ws = None.
Proof.
  intros Hws. revert s. induction fuel as [|fuel IH]; intros s Hlen; simpl.
  - destruct s; [|simpl in Hlen; lia].
    destruct (List.find _ ws) as [w|] eqn:Hw; [|done].
    apply find_some in Hw as [Hin ->%startswith_empty]. by destruct (Hws "").
  - destruct (List.find (fun w => Py.startswith w s) ws) as [w|] eqn:Hw;
      [|done].
    apply find_some in Hw as [Hin Hpre]. apply IH.
    rewrite drop_length. specialize (Hws w Hin).
    destruct w; [done|]. destruct s; [done|]. simpl in *. lia.
Qed.
End Strings.

Lemma slug_plain_path p :
  plain_path p = true →
  ∃ q, p = String "/" q ∧ Py.contains "_" q = false ∧ q ≠ ""
       ∧ get_path_slug p = Py.replace "/" "_" q.
Proof.
  destruct p as [|c q]; simpl; [done|].
  intros [[[Hc Hq]%andb_prop Hs]%andb_prop Hu]%andb_prop.
  apply Ascii.eqb_eq in Hc as ->. apply bool_decide_eq_true in Hs.
  apply negb_true_iff in Hu. apply truthy_true in Hq.
  exists q. repeat split; try done.
  unfold get_path_slug, Py.strip, Py.or_else. simpl.
  fold (Py.strip "/" q). rewrite Hs.
  destruct (Py.truthy _) eqn:Ht; [done|].
  destruct q; [done|discriminate].
Qed.

(** Distinct paths with one slug: the two spellings of the root, a path
    and its spelling with a trailing slash, a nested path and a flat one
    with an underscore, the root and a page called [home]. *)
Example slug_collisions :
  get_path_slug "" = get_path_slug "/"
  ∧ get_path_slug "/a" = get_path_slug "/a/"
  ∧ get_path_slug "/a/b" = get_path_slug "/a_b"
  ∧ get_path_slug "/" = get_path_slug "/home".
Proof. done. Qed.

(** C5, as the specification states it, at a concrete path set: the paths
    [/a/b] and [/a_b] are distinct and share the slug [a_b]; so do [/] and
    [/home], and [/a] and [/a/]. *)
Lemma C5_slug_collision :
  ¬ (∀ p1 p2 : string,
       p1 ∈ ({[ "/a/b"; "/a_b" ]} : gset string) →
       p2 ∈ ({[ "/a/b"; "/a_b" ]} : gset string) →
       p1 ≠ p2 → get_path_slug p1 ≠ get_path_slug p2).
Proof.
  intros H. apply (H "/a/b" "/a_b"); [set_solver..|done|done].
Qed.

(** C5, amended: the slug derivation is injective on plain paths.  Two
    distinct paths, each a slash followed by a non-empty string with no
    slash at either end and no underscore, have distinct slugs. *)
Theorem C5_slug_injective_on_plain_paths (p1 p2 : string) :
  plain_path p1 = true → plain_path p2 = true →
  p1 ≠ p2 → get_path_slug p1 ≠ get_path_slug p2.
Proof.
  intros (q1 & -> & Hu1 & _ & ->)%slug_plain_path
         (q2 & -> & Hu2 & _ & ->)%slug_plain_path Hne Heq.
  apply Hne. f_equal. by apply (replace_inj "/" "_").
Qed.

Lemma C5_slug_injective_witness :
  get_path_slug "/about" ≠ get_path_slug "/services/dent-repair".
Proof.
  apply (C5_slug_injective_on_plain_paths "/about" "/services/dent-repair");
    [reflexivity | reflexivity | discriminate].
Defined.

(** C6: the slug derivation is a function of the path (equal paths give
    equal slugs), it is idempotent, the empty path gives [home] and
    [/a/b/] gives [a_b]. *)
Theorem C6_slug_deterministic_idempotent :
  (∀ p q : string, p = q → get_path_slug p = get_path_slug q)
  ∧ (∀ p : string, get_path_slug (get_path_slug p) = get_path_slug p)
  ∧ get_path_slug "" = "home"
  ∧ get_path_slug "/a/b/" = "a_b".
Proof.
  split; [by intros p q ->|]. split; [|done].
  intros p. apply slug_of_slashless; [apply slug_no_slash|apply slug_nonempty].
Qed.

(** ** Running monadic code *)

Section MonadFacts.
Context {World : Type}.

Lemma bind_Ret_inv {A B} (m : M World A) (f : A → M World B) w b w' :
  bind m f w = (Ret b, w') →
  ∃ a w1, m w = (Ret a, w1) ∧ f a w1 = (Ret b, w').
Proof.
  unfold bind. destruct (m w) as [[a|e] w1]; [eauto|done].
Qed.

Lemma bind_Ret_intro {A B} (m : M World A) (f : A → M World B) w a w1 :
  m w = (Ret a, w1) → bind m f w = f a w1.
Proof. unfold bind. by intros ->. Qed.

Lemma bind_Raise_intro {A B} (m : M World A) (f : A → M World B) w e w1 :
  m w = (Raise e, w1) → bind m f w = (Raise e, w1).
Proof. unfold bind. by intros ->. Qed.

Lemma lift_Ret_inv {A} (r : result A) (w : World) a w' :
  lift r w = (Ret a, w') → r = Ret a ∧ w' = w.
Proof. unfold lift. by intros [= -> ->]. Qed.

Lemma ret_inv {A} (a b : A) (w w' : World) :
  ret a w = (Ret b, w') → a = b ∧ w' = w.
Proof. unfold ret. by intros [= -> ->]. Qed.

(** A [try] whose handler catches every exception and returns never
    raises. *)
Lemma try_except_all_returns {A} (body : M World A) (d : A) w :
  ∃ a w', try_except body is_Exception (fun _ => ret d) w = (Ret a, w').
Proof.
  unfold try_except. destruct (body w) as [[a|e] w']; simpl; eauto.
Qed.
End MonadFacts.

(** Takes apart a hypothesis stating that a sequence of binds returned. *)
Ltac inv_bind H :=
  repeat match type of H with
  | bind _ _ _ = (Ret _, _) =>
      let a := fresh "a" in
      let w := fresh "w" in
      let Hm := fresh "Hm" in
      apply bind_Ret_inv in H as (a & w & Hm & H);
      try (apply lift_Ret_inv in Hm as [Hm ->])
  | lift _ _ = (Ret _, _) => apply lift_Ret_inv in H as [H ->]
  | ret _ _ = (Ret _, _) => apply ret_inv in H as [H ->]
  end.

(** ** The path mappings and their sorted union *)

Section Reconciler.
Context {World : Type} `{!Platform World}.
Implicit Types (urls : list string) (m sm tm : gmap string string).

Lemma path_map_app urls1 urls2 m :
  path_map (urls1 ++ urls2) m =
  match path_map urls1 m with
  | Ret m1 => path_map urls2 m1
  | Raise e => Raise e
  end.
Proof.
  revert m. induction urls1 as [|u urls1 IH]; intros m; simpl; [done|].
  destruct (urlparse_path u); [apply IH|done].
Qed.

Lemma path_map_dom urls m m' p :
  path_map urls m = Ret m' →
  is_Some (m' !! p) ↔ is_Some (m !! p) ∨ path_of urls p.
Proof.
  unfold path_of. revert m.
  induction urls as [|u urls IH]; intros m; simpl.
  - intros [= ->]. split; [auto|]. intros [?|(u & Hu & _)]; [done|].
    by apply elem_of_nil in Hu.
  - destruct (urlparse_path u) as [q|] eqn:Hq; [|done].
    intros ->%IH. rewrite lookup_insert_is_Some. split.
    + intros [[-> | [_ ?]] | (v & Hv & Hp)]; [|by left|].
      * right. exists u. split; [left|done].
      * right. exists v. split; [by right|done].
    + intros [Hm | (v & Hv & Hp)].
      * destruct (decide (q = p)); left; auto.
      * apply elem_of_cons in Hv as [->|Hv]; [|right; eauto].
        left. left. congruence.
Qed.

(** Without an entry for [p] to start from, [p] is a key exactly when it
    is the path of one of the URLs. *)
Lemma path_map_keys urls m' p :
  path_map urls ∅ = Ret m' → is_Some (m' !! p) ↔ path_of urls p.
Proof.
  intros H. rewrite (path_map_dom _ _ _ _ H), lookup_empty.
  split; [intros [[? [=]]|?]; done | auto].
Qed.

Lemma path_map_absent urls m m' p :
  path_map urls m = Ret m' → ¬ path_of urls p → m' !! p = m !! p.
Proof.
  unfold path_of. revert m.
  induction urls as [|u urls IH]; intros m; simpl; [by intros [= ->]|].
  destruct (urlparse_path u) as [q|] eqn:Hq; [|done].
  intros Hm Hno. rewrite (IH _ Hm).
  - apply lookup_insert_ne. intros ->. apply Hno. exists u. split; [left|done].
  - intros (v & Hv & Hp). apply Hno. exists v. split; [by right|done].
Qed.

(** Last wins: the URL kept for a path is the last one with that path. *)
Lemma path_map_last front u back m m' p :
  urlparse_path u = Ret p →
  (∀ v, v ∈ back → urlparse_path v ≠ Ret p) →
  path_map (front ++ u :: back) m = Ret m' →
  m' !! p = Some u.
Proof.
  intros Hp Hback. rewrite path_map_app.
  destruct (path_map front m) as [m1|]; [|done]. simpl. rewrite Hp.
  intros Hm. rewrite (path_map_absent _ _ _ _ Hm).
  - apply lookup_insert_eq.
  - intros (v & Hv & Hvp). by apply (Hback v).
Qed.

(** The comprehension only fails when [urlparse] does. *)
Lemma path_map_total urls m :
  (∀ u, u ∈ urls → ∃ p, urlparse_path u = Ret p) →
  ∃ m', path_map urls m = Ret m'.
Proof.
  revert m. induction urls as [|u urls IH]; intros m Hall; simpl; [eauto|].
  destruct (Hall u) as [p ->]; [left|].
  apply IH. intros v Hv. apply Hall. by right.
Qed.

Lemma all_paths_elem sm tm p :
  p ∈ all_paths sm tm ↔ is_Some (sm !! p) ∨ is_Some (tm !! p).
Proof.
  unfold all_paths. rewrite merge_sort_Permutation, elem_of_elements.
  rewrite elem_of_union, !elem_of_dom. done.
Qed.

Lemma all_paths_sorted sm tm : StronglySorted String.le (all_paths sm tm).
Proof. apply (StronglySorted_merge_sort _). Qed.

Lemma all_paths_NoDup sm tm : NoDup (all_paths sm tm).
Proof.
  unfold all_paths. rewrite merge_sort_Permutation. apply NoDup_elements.
Qed.
End Reconciler.

(** ** The comparison loop *)

Section Orchestrator.
Context {World : Type} `{!Platform World}.
Variables (rd : string) (take : string → string → M World bool).
Variables (sm tm : gmap string string).

Lemma capture_side_inv url img w b w' :
  capture_side take url img w = (Ret b, w') →
  (truthy_opt url = false ∧ b = false ∧ w' = w)
  ∨ (∃ u, url = Some u ∧ Py.truthy u = true ∧ take u img w = (Ret b, w')).
Proof.
  unfold capture_side. destruct (truthy_opt url) eqn:Ht.
  - destruct url as [u|]; [|done]. right. exists u. eauto.
  - intros [= <- <-]. by left.
Qed.

Lemma capture_side_absent img w :
  capture_side take None img w = (Ret false, w).
Proof. done. Qed.

Lemma capture_side_present u img w :
  Py.truthy u = true → capture_side take (Some u) img w = take u img w.
Proof. unfold capture_side. simpl. by intros ->. Qed.

(** The loop body returns when the directory can be made and both sides
    return, and its entry is built from the two outcomes. *)
Lemma compare_page_inv p w e w' :
  compare_page rd take sm tm p w = (Ret e, w') →
  ∃ w0 bs w1 bt,
    os_makedirs (page_dir rd p) w = (Ret tt, w0)
    ∧ capture_side take (sm !! p) (source_img rd p) w0 = (Ret bs, w1)
    ∧ capture_side take (tm !! p) (target_img rd p) w1 = (Ret bt, w')
    ∧ e = entry_of p bs bt.
Proof.
  unfold compare_page. intros H. inv_bind H. subst e.
  destruct a. eauto 10.
Qed.

Lemma compare_page_intro p w w0 bs w1 bt w' :
  os_makedirs (page_dir rd p) w = (Ret tt, w0) →
  capture_side take (sm !! p) (source_img rd p) w0 = (Ret bs, w1) →
  capture_side take (tm !! p) (target_img rd p) w1 = (Ret bt, w') →
  compare_page rd take sm tm p w = (Ret (entry_of p bs bt), w').
Proof.
  intros H0 Hs Ht. unfold compare_page.
  rewrite (bind_Ret_intro _ _ _ _ _ H0).
  rewrite (bind_Ret_intro _ _ _ _ _ Hs).
  by rewrite (bind_Ret_intro _ _ _ _ _ Ht).
Qed.

Lemma entry_of_flags_agree p bs bt : flags_agree (entry_of p bs bt).
Proof. by destruct bs, bt. Qed.

(** The loop appends one entry per path, in the order of the paths. *)
Lemma compare_pages_inv paths acc w es w' :
  compare_pages rd take sm tm paths acc w = (Ret es, w') →
  ∃ new, es = (acc ++ new)%list ∧ Forall2 (made_for rd take sm tm) paths new.
Proof.
  revert acc w. induction paths as [|p paths IH]; intros acc w; simpl.
  - intros [<- _]%ret_inv. exists []. by rewrite app_nil_r.
  - intros (e & w1 & He & (new & -> & Hnew)%IH)%bind_Ret_inv.
    exists (e :: new). rewrite <-app_assoc. split; [done|].
    constructor; [by exists w, w1|done].
Qed.

Lemma made_for_path p e : made_for rd take sm tm p e → path e = p.
Proof. by intros (w & w' & (? & ? & ? & ? & _ & _ & _ & ->)%compare_page_inv). Qed.

Lemma made_for_slug p e : made_for rd take sm tm p e → slug e = get_path_slug p.
Proof. by intros (w & w' & (? & ? & ? & ? & _ & _ & _ & ->)%compare_page_inv). Qed.

Lemma made_for_flags_agree p e : made_for rd take sm tm p e → flags_agree e.
Proof.
  intros (w & w' & (? & ? & ? & ? & _ & _ & _ & ->)%compare_page_inv).
  apply entry_of_flags_agree.
Qed.

(** A side without a URL in its mapping is reported like a failed
    capture. *)
Lemma made_for_source_absent p e :
  made_for rd take sm tm p e → sm !! p = None → source e = None ∧ source_failed e = true.
Proof.
  intros (w & w' & (? & bs & ? & ? & _ & Hs & _ & ->)%compare_page_inv) Hp.
  rewrite Hp in Hs. by injection Hs as <- _.
Qed.

Lemma made_for_target_absent p e :
  made_for rd take sm tm p e → tm !! p = None → target e = None ∧ target_failed e = true.
Proof.
  intros (w & w' & (? & ? & ? & bt & _ & _ & Ht & ->)%compare_page_inv) Hp.
  rewrite Hp in Ht. by injection Ht as <- _.
Qed.

Lemma Forall2_made_for_paths paths new :
  Forall2 (made_for rd take sm tm) paths new → path <$> new = paths.
Proof.
  induction 1 as [|p e paths new He _ IH]; [done|].
  rewrite fmap_cons. f_equal; [by eapply made_for_path|done].
Qed.
End Orchestrator.

(** ** The sitemap fetcher *)

Section Fetcher.
Context {World : Type} `{!Platform World}.

Lemma raise_for_status_ok r :
  ¬ (400 ≤ status_code r < 600)%Z → raise_for_status r = Ret tt.
Proof. intros H. unfold raise_for_status. by rewrite bool_decide_eq_false_2. Qed.

Lemma raise_for_status_error r :
  (400 ≤ status_code r < 600)%Z → raise_for_status r = Raise HTTPError.
Proof. intros H. unfold raise_for_status. by rewrite bool_decide_eq_true_2. Qed.

Lemma baseline_fetcher :
  fetcher_contract Baseline.get_sitemap_urls (Some 15%Z).
Proof.
  unfold fetcher_contract, Baseline.get_sitemap_urls.
  split; [|split; [|split; [|split]]].
  - intros url w r w1 locs Hget Hstatus Hlocs.
    split; [|apply length_fmap].
    unfold try_except, bind, lift.
    rewrite Hget, (raise_for_status_ok _ Hstatus), Hlocs.
    by destruct locs.
  - intros url w e w1 Hget. unfold try_except, bind. by rewrite Hget.
  - intros url w r w1 Hget Hstatus. unfold try_except, bind, lift.
    by rewrite Hget, (raise_for_status_error _ Hstatus).
  - intros url w r w1 e Hget Hparse. unfold try_except, bind, lift.
    rewrite Hget. destruct (raise_for_status r); [|done]. by rewrite Hparse.
  - intros url w. apply try_except_all_returns.
Qed.

Lemma variant_fetcher : fetcher_contract Variant.get_sitemap_urls None.
Proof.
  unfold fetcher_contract, Variant.get_sitemap_urls.
  split; [|split; [|split; [|split]]].
  - intros url w r w1 locs Hget Hstatus Hlocs.
    split; [|apply length_fmap].
    unfold try_except, bind, lift.
    by rewrite Hget, (raise_for_status_ok _ Hstatus), Hlocs.
  - intros url w e w1 Hget. unfold try_except, bind. by rewrite Hget.
  - intros url w r w1 Hget Hstatus. unfold try_except, bind, lift.
    by rewrite Hget, (raise_for_status_error _ Hstatus).
  - intros url w r w1 e Hget Hparse. unfold try_except, bind, lift.
    rewrite Hget. destruct (raise_for_status r); [|done]. by rewrite Hparse.
  - intros url w. apply try_except_all_returns.
Qed.
End Fetcher.

(** ** The capture function *)

Section Capture.
Context {World : Type} `{!Platform World}.
Implicit Types (url out : string) (w : World).

(** One turn of the baseline's retry loop. *)
Lemma attempt_loop_success n attempts url out w w1 :
  capture_page Baseline.ACCEPT_XPATH 400 url out w = (Ret tt, w1) →
  Baseline.attempt_loop (n :: attempts) url out w = (Ret true, w1).
Proof.
  intros H. simpl. unfold bind at 1, try_except, bind at 1. by rewrite H.
Qed.

Lemma attempt_loop_retry n attempts url out w w1 :
  capture_page Baseline.ACCEPT_XPATH 400 url out w
    = (Raise WebDriverException, w1) →
  Baseline.attempt_loop (n :: attempts) url out w
  = Baseline.attempt_loop attempts url out w1.
Proof.
  intros H. simpl. unfold bind at 1, try_except, bind at 1. by rewrite H.
Qed.

Lemma attempt_loop_raise n attempts url out w e w1 :
  capture_page Baseline.ACCEPT_XPATH 400 url out w = (Raise e, w1) →
  is_WebDriverException e = false →
  Baseline.attempt_loop (n :: attempts) url out w = (Raise e, w1).
Proof.
  intros H He. simpl. unfold bind at 1, try_except, bind at 1.
  by rewrite H, He.
Qed.

(** When every attempt up to the ceiling ends in a [WebDriverException],
    the baseline's capture returns [False]. *)
Lemma attempt_loop_exhausted attempts url out w w' :
  attempts_fail Baseline.ACCEPT_XPATH 400 (length attempts) url out w w' →
  Baseline.attempt_loop attempts url out w = (Ret false, w').
Proof.
  revert w. induction attempts as [|n attempts IH]; intros w H.
  - simpl in H. by subst w'.
  - destruct H as (w1 & H1 & Hrest).
    rewrite (attempt_loop_retry _ _ _ _ _ _ H1). by apply IH.
Qed.

(** After [k] attempts that ended in a [WebDriverException], with attempts
    left, an attempt ending in another exception ends the loop with that
    exception. *)
Lemma attempt_loop_raise_after k attempts url out w w1 e w2 :
  (k < length attempts)%nat →
  attempts_fail Baseline.ACCEPT_XPATH 400 k url out w w1 →
  capture_page Baseline.ACCEPT_XPATH 400 url out w1 = (Raise e, w2) →
  is_WebDriverException e = false →
  Baseline.attempt_loop attempts url out w = (Raise e, w2).
Proof.
  revert attempts w. induction k as [|k IH]; intros [|n attempts] w Hk Hfail;
    simpl in Hk; try lia.
  - simpl in Hfail. subst w1. apply attempt_loop_raise.
  - destruct Hfail as (w' & H1 & Hrest). intros Hraise He.
    rewrite (attempt_loop_retry _ _ _ _ _ _ H1). apply IH; [lia|done..].
Qed.

(** After [k] attempts that ended in a [WebDriverException], with attempts
    left, an attempt that goes through makes the capture a success. *)
Lemma attempt_loop_success_after k attempts url out w w1 w2 :
  (k < length attempts)%nat →
  attempts_fail Baseline.ACCEPT_XPATH 400 k url out w w1 →
  capture_page Baseline.ACCEPT_XPATH 400 url out w1 = (Ret tt, w2) →
  Baseline.attempt_loop attempts url out w = (Ret true, w2).
Proof.
  revert attempts w. induction k as [|k IH]; intros [|n attempts] w Hk Hfail;
    simpl in Hk; try lia.
  - simpl in Hfail. subst w1. apply attempt_loop_success.
  - destruct Hfail as (w' & H1 & Hrest). intros Hok.
    rewrite (attempt_loop_retry _ _ _ _ _ _ H1). apply IH; [lia|done..].
Qed.

Lemma baseline_take_exhausted url out w w' :
  attempts_fail Baseline.ACCEPT_XPATH 400 Baseline.RETRY_COUNT url out w w' →
  Baseline.take_fullpage_screenshot url out w = (Ret false, w').
Proof. apply (attempt_loop_exhausted (seq 1 Baseline.RETRY_COUNT)). Qed.

(** A first attempt that fails in the automation layer is followed by a
    second one, whose success is the success of the capture. *)
Lemma baseline_take_second_attempt url out w w1 w2 :
  capture_page Baseline.ACCEPT_XPATH 400 url out w
    = (Raise WebDriverException, w1) →
  capture_page Baseline.ACCEPT_XPATH 400 url out w1 = (Ret tt, w2) →
  Baseline.take_fullpage_screenshot url out w = (Ret true, w2).
Proof.
  intros H1 H2. unfold Baseline.take_fullpage_screenshot. simpl seq.
  rewrite (attempt_loop_retry _ _ _ _ _ _ H1).
  by apply attempt_loop_success.
Qed.

(** The variant's capture returns a boolean whatever happens: [True]
    when the one attempt goes through, [False] on any exception. *)
Lemma variant_take_returns url out w :
  ∃ b w', Variant.take_fullpage_screenshot url out w = (Ret b, w').
Proof. apply try_except_all_returns. Qed.

Lemma variant_take_failure url out w e w1 :
  capture_page Variant.ACCEPT_XPATH 500 url out w = (Raise e, w1) →
  Variant.take_fullpage_screenshot url out w = (Ret false, w1).
Proof.
  intros H. unfold Variant.take_fullpage_screenshot, try_except, bind.
  by rewrite H.
Qed.

Lemma variant_take_success url out w w1 :
  capture_page Variant.ACCEPT_XPATH 500 url out w = (Ret tt, w1) →
  Variant.take_fullpage_screenshot url out w = (Ret true, w1).
Proof.
  intros H. unfold Variant.take_fullpage_screenshot, try_except, bind.
  by rewrite H.
Qed.
End Capture.

(** ** The two orchestrators *)

Section Runs.
Context {World : Type} `{!Platform World}.

Lemma generate_html_report_returns rd title entries (w : World) :
  ∃ w', generate_html_report rd title entries w = (Ret tt, w').
Proof.
  destruct (try_except_all_returns
              (with_open (os_path_join rd "index.html") "w" (fun f =>
                 file_write f
                   (String.concat (String "010" "")
                      (report_html title entries))))
              tt w) as ([] & w' & H).
  by exists w'.
Qed.

(** The steps of a baseline run that produced its entries. *)
Lemma baseline_run_inv w entries w' :
  Baseline.run_test w = (Ret entries, w') →
  ∃ srcs w1 tgts w2 sm tm w3,
    Baseline.get_sitemap_urls Baseline.SOURCE_SITEMAP_URL w = (Ret srcs, w1)
    ∧ Baseline.get_sitemap_urls Baseline.TARGET_SITEMAP_URL w1
      = (Ret tgts, w2)
    ∧ path_map srcs ∅ = Ret sm
    ∧ path_map (Baseline.with_fallback tgts) ∅ = Ret tm
    ∧ compare_pages Baseline.REPORT_DIR Baseline.take_fullpage_screenshot
        sm tm (all_paths sm tm) [] w2 = (Ret entries, w3).
Proof.
  unfold Baseline.run_test. intros H. inv_bind H. subst.
  eauto 12.
Qed.

(** The steps of a variant run that produced its entries. *)
Lemma variant_run_inv w entries w' :
  Variant.run_test w = (Ret entries, w') →
  ∃ srcs w1 tgts w2 sm tm w3,
    Variant.get_sitemap_urls Variant.SOURCE_SITEMAP_URL w = (Ret srcs, w1)
    ∧ Variant.get_sitemap_urls Variant.TARGET_SITEMAP_URL w1
      = (Ret tgts, w2)
    ∧ path_map srcs ∅ = Ret sm
    ∧ path_map tgts ∅ = Ret tm
    ∧ compare_pages Variant.REPORT_DIR Variant.take_fullpage_screenshot
        sm tm (all_paths sm tm) [] w2 = (Ret entries, w3).
Proof.
  unfold Variant.run_test. intros H. inv_bind H. subst.
  eauto 12.
Qed.

(** The paths of the entries the loop makes over the sorted union. *)
Lemma entries_sorted_union rd take srcs tgts sm tm (w : World) entries w' :
  path_map srcs ∅ = Ret sm →
  path_map tgts ∅ = Ret tm →
  compare_pages rd take sm tm (all_paths sm tm) [] w = (Ret entries, w') →
  Forall2 (made_for rd take sm tm) (all_paths sm tm) entries
  ∧ sorted_union (path <$> entries) srcs tgts.
Proof.
  intros Hs Ht (new & -> & Hnew)%compare_pages_inv. simpl.
  split; [done|].
  rewrite (Forall2_made_for_paths _ _ _ _ _ _ Hnew).
  split; [apply all_paths_sorted|]. split; [apply all_paths_NoDup|].
  intros p. rewrite all_paths_elem.
  by rewrite (path_map_keys _ _ _ Hs), (path_map_keys _ _ _ Ht).
Qed.
End Runs.

(** ** Entries of a run *)

Section Entries.
Context {World : Type} `{!Platform World}.
Variables (rd : string) (take : string → string → M World bool).

Lemma Forall2_made_for_elem sm tm paths new e :
  Forall2 (made_for rd take sm tm) paths new →
  e ∈ new → made_for rd take sm tm (path e) e.
Proof.
  induction 1 as [|p e' paths new He _ IH]; [by intros ?%elem_of_nil|].
  intros [->|Hin]%elem_of_cons; [|by apply IH].
  by rewrite (made_for_path _ _ _ _ _ _ He).
Qed.

Lemma lookup_None_path_map urls m p :
  path_map urls ∅ = Ret m → m !! p = None ↔ ¬ path_of urls p.
Proof.
  intros H. rewrite <-(path_map_keys _ _ _ H), eq_None_not_Some. done.
Qed.

(** Every entry of a run has agreeing flags, and a side whose site has no
    URL with the entry's path is reported as failed. *)
Lemma entries_flags srcs tgts sm tm (w : World) entries w' :
  path_map srcs ∅ = Ret sm →
  path_map tgts ∅ = Ret tm →
  compare_pages rd take sm tm (all_paths sm tm) [] w = (Ret entries, w') →
  ∀ e, e ∈ entries →
    flags_agree e
    ∧ (¬ path_of srcs (path e) → source e = None ∧ source_failed e = true)
    ∧ (¬ path_of tgts (path e) → target e = None ∧ target_failed e = true).
Proof.
  intros Hs Ht (new & -> & Hnew)%compare_pages_inv e He. simpl in He.
  pose proof (Forall2_made_for_elem _ _ _ _ _ Hnew He) as Hmade.
  split; [by eapply made_for_flags_agree|]. split.
  - intros Hno. eapply made_for_source_absent; [done|].
    by apply (lookup_None_path_map srcs).
  - intros Hno. eapply made_for_target_absent; [done|].
    by apply (lookup_None_path_map tgts).
Qed.

(** The entry of a page whose capture returned [False]. *)
Lemma failed_side_reported_of_take
    (fails : string → string → World → World → Prop) :
  (∀ u out w w', fails u out w w' → take u out w = (Ret false, w')) →
  failed_side_reported rd take fails.
Proof.
  intros Hfails sm tm p u w w0 e w' Hdir He Hu.
  apply compare_page_inv in He
    as (w0' & bs & w1' & bt & Hdir' & Hs & Ht & ->).
  rewrite Hdir in Hdir'. injection Hdir' as <-. split.
  - intros w1 Hp Hf. apply Hfails in Hf.
    rewrite Hp, (capture_side_present _ _ _ _ Hu), Hf in Hs.
    by injection Hs as <- <-.
  - intros bs' w1 w2 Hs' Hp Hf. apply Hfails in Hf.
    rewrite Hs in Hs'. injection Hs' as <- <-.
    rewrite Hp, (capture_side_present _ _ _ _ Hu), Hf in Ht.
    by injection Ht as <- <-.
Qed.

(** The block of an entry stands in the report as it is. *)
Lemma report_html_block title entries e :
  e ∈ entries →
  ∃ before after : list string,
    report_html title entries = (before ++ entry_html e ++ after)%list.
Proof.
  intros (l1 & l2 & ->)%list_elem_of_split.
  exists (firstn 4 (report_html title []) ++ concat (entry_html <$> l1))%list,
         (concat (entry_html <$> l2) ++ ["</body></html>"])%list.
  unfold report_html.
  rewrite fmap_app, fmap_cons, concat_app, concat_cons.
  cbn [firstn fmap list_fmap concat app]. rewrite <-!app_assoc. done.
Qed.
End Entries.

Section RunsFrom.
Context {World : Type} `{!Platform World}.

(** A baseline run seen from the two URL sequences it fetched. *)
Lemma baseline_run_from w srcs w1 tgts w2 entries w' :
  Baseline.get_sitemap_urls Baseline.SOURCE_SITEMAP_URL w = (Ret srcs, w1) →
  Baseline.get_sitemap_urls Baseline.TARGET_SITEMAP_URL w1 = (Ret tgts, w2) →
  Baseline.run_test w = (Ret entries, w') →
  ∃ sm tm w3,
    path_map srcs ∅ = Ret sm
    ∧ path_map (Baseline.with_fallback tgts) ∅ = Ret tm
    ∧ compare_pages Baseline.REPORT_DIR Baseline.take_fullpage_screenshot
        sm tm (all_paths sm tm) [] w2 = (Ret entries, w3).
Proof.
  intros Hs Ht (srcs' & w1' & tgts' & w2' & sm & tm & w3
                & Hs' & Ht' & Hsm & Htm & Hloop)%baseline_run_inv.
  rewrite Hs in Hs'. injection Hs' as <- <-.
  rewrite Ht in Ht'. injection Ht' as <- <-. eauto 10.
Qed.

(** A variant run seen from the two URL sequences it fetched. *)
Lemma variant_run_from w srcs w1 tgts w2 entries w' :
  Variant.get_sitemap_urls Variant.SOURCE_SITEMAP_URL w = (Ret srcs, w1) →
  Variant.get_sitemap_urls Variant.TARGET_SITEMAP_URL w1 = (Ret tgts, w2) →
  Variant.run_test w = (Ret entries, w') →
  ∃ sm tm w3,
    path_map srcs ∅ = Ret sm
    ∧ path_map tgts ∅ = Ret tm
    ∧ compare_pages Variant.REPORT_DIR Variant.take_fullpage_screenshot
        sm tm (all_paths sm tm) [] w2 = (Ret entries, w3).
Proof.
  intros Hs Ht (srcs' & w1' & tgts' & w2' & sm & tm & w3
                & Hs' & Ht' & Hsm & Htm & Hloop)%variant_run_inv.
  rewrite Hs in Hs'. injection Hs' as <- <-.
  rewrite Ht in Ht'. injection Ht' as <- <-. eauto 10.
Qed.
End RunsFrom.

(** ** Runs that return *)

Section Progress.
Context {World : Type} `{!Platform World}.
Implicit Types (rd : string) (take : string → string → M World bool).

(** Every URL has a path, and directories can be made. *)
Hypothesis urlparse_total : ∀ u, ∃ p, urlparse_path u = Ret p.
Hypothesis makedirs_returns :
  ∀ d (w : World), ∃ w', os_makedirs d w = (Ret tt, w').

Lemma capture_side_returns take url img (w : World) :
  (∀ u out w, ∃ b w', take u out w = (Ret b, w')) →
  ∃ b w', capture_side take url img w = (Ret b, w').
Proof.
  intros Htake. unfold capture_side.
  destruct (truthy_opt url); [apply Htake|by exists false, w].
Qed.

Lemma compare_pages_returns rd take sm tm paths acc (w : World) :
  (∀ u out w, ∃ b w', take u out w = (Ret b, w')) →
  ∃ entries w', compare_pages rd take sm tm paths acc w = (Ret entries, w').
Proof.
  intros Htake. revert acc w.
  induction paths as [|p paths IH]; intros acc w; simpl.
  - by exists acc, w.
  - destruct (makedirs_returns (page_dir rd p) w) as [w0 H0].
    destruct (capture_side_returns take (sm !! p) (source_img rd p) w0 Htake)
      as (bs & w1 & Hs).
    destruct (capture_side_returns take (tm !! p) (target_img rd p) w1 Htake)
      as (bt & w2 & Ht).
    rewrite (bind_Ret_intro _ _ _ _ _
               (compare_page_intro _ _ _ _ _ _ _ _ _ _ _ H0 Hs Ht)).
    apply IH.
Qed.

(** The variant captures never raise, so a variant run always produces its
    entries. *)
Lemma variant_run_returns (w : World) :
  ∃ entries w', Variant.run_test w = (Ret entries, w').
Proof.
  unfold Variant.run_test.
  destruct (proj2 (proj2 (proj2 (proj2 variant_fetcher)))
              Variant.SOURCE_SITEMAP_URL w) as (srcs & w1 & Hs).
  destruct (proj2 (proj2 (proj2 (proj2 variant_fetcher)))
              Variant.TARGET_SITEMAP_URL w1) as (tgts & w2 & Ht).
  destruct (path_map_total srcs ∅) as [sm Hsm]; [by intros; apply urlparse_total|].
  destruct (path_map_total tgts ∅) as [tm Htm]; [by intros; apply urlparse_total|].
  rewrite (bind_Ret_intro _ _ _ _ _ Hs), (bind_Ret_intro _ _ _ _ _ Ht).
  rewrite Hsm, Htm. unfold lift at 1 2. unfold bind at 1 2.
  destruct (compare_pages_returns Variant.REPORT_DIR
              Variant.take_fullpage_screenshot sm tm (all_paths sm tm) [] w2)
    as (entries & w3 & Hloop).
  { intros u out w0. apply variant_take_returns. }
  destruct (generate_html_report_returns Variant.REPORT_DIR
              "Regression Report" entries w3) as [w4 Hrep].
  rewrite (bind_Ret_intro _ _ _ _ _ Hloop), (bind_Ret_intro _ _ _ _ _ Hrep).
  by exists entries, w4.
Qed.

(** When the capture procedure raises nothing but [WebDriverException]s,
    the baseline captures return and so does a baseline run. *)
Hypothesis capture_page_automation_only :
  ∀ url out (w : World) e w',
    capture_page Baseline.ACCEPT_XPATH 400 url out w = (Raise e, w') →
    is_WebDriverException e = true.

Lemma baseline_take_returns url out (w : World) :
  ∃ b w', Baseline.take_fullpage_screenshot url out w = (Ret b, w').
Proof.
  unfold Baseline.take_fullpage_screenshot.
  generalize (seq 1 Baseline.RETRY_COUNT). intros attempts. revert w.
  induction attempts as [|n attempts IH]; intros w; [by exists false, w|].
  destruct (capture_page Baseline.ACCEPT_XPATH 400 url out w)
    as [[[]|e] w1] eqn:Hcap.
  - exists true, w1. by apply attempt_loop_success.
  - pose proof (capture_page_automation_only _ _ _ _ _ Hcap) as He.
    destruct e; try discriminate.
    rewrite (attempt_loop_retry _ _ _ _ _ _ Hcap). apply IH.
Qed.

Lemma baseline_run_returns (w : World) :
  ∃ entries w', Baseline.run_test w = (Ret entries, w').
Proof.
  unfold Baseline.run_test.
  destruct (proj2 (proj2 (proj2 (proj2 baseline_fetcher)))
              Baseline.SOURCE_SITEMAP_URL w) as (srcs & w1 & Hs).
  destruct (proj2 (proj2 (proj2 (proj2 baseline_fetcher)))
              Baseline.TARGET_SITEMAP_URL w1) as (tgts & w2 & Ht).
  destruct (path_map_total srcs ∅) as [sm Hsm]; [by intros; apply urlparse_total|].
  destruct (path_map_total (Baseline.with_fallback tgts) ∅) as [tm Htm];
    [by intros; apply urlparse_total|].
  rewrite (bind_Ret_intro _ _ _ _ _ Hs), (bind_Ret_intro _ _ _ _ _ Ht).
  rewrite Hsm, Htm. unfold lift at 1 2. unfold bind at 1 2.
  destruct (compare_pages_returns Baseline.REPORT_DIR
              Baseline.take_fullpage_screenshot sm tm (all_paths sm tm) [] w2)
    as (entries & w3 & Hloop).
  { intros u out w0. apply baseline_take_returns. }
  destruct (generate_html_report_returns Baseline.REPORT_DIR
              "Visual Regression Report" entries w3) as [w4 Hrep].
  rewrite (bind_Ret_intro _ _ _ _ _ Hloop), (bind_Ret_intro _ _ _ _ _ Hrep).
  by exists entries, w4.
Qed.
End Progress.

(** * The claims *)

(** C1: in a run that fetched the source URLs [srcs] and the target URLs
    [tgts] and produced its report entries, the paths of the entries, in
    report order, are sorted in ascending order, hold no path twice, and are
    exactly the paths of the source URLs and of the target URLs.  In the
    baseline the target URLs are the ones the reconciler works on, that is
    the homepage fallback when the fetch gave none. *)
Theorem C1_report_paths_sorted_union {World : Type} `{!Platform World} :
  (∀ w srcs w1 tgts w2 entries w',
     Baseline.get_sitemap_urls Baseline.SOURCE_SITEMAP_URL w = (Ret srcs, w1) →
     Baseline.get_sitemap_urls Baseline.TARGET_SITEMAP_URL w1 = (Ret tgts, w2) →
     Baseline.run_test w = (Ret entries, w') →
     sorted_union (path <$> entries) srcs (Baseline.with_fallback tgts))
  ∧ (∀ w srcs w1 tgts w2 entries w',
       Variant.get_sitemap_urls Variant.SOURCE_SITEMAP_URL w = (Ret srcs, w1) →
       Variant.get_sitemap_urls Variant.TARGET_SITEMAP_URL w1 = (Ret tgts, w2) →
       Variant.run_test w = (Ret entries, w') →
       sorted_union (path <$> entries) srcs tgts).
Proof.
  split; intros w srcs w1 tgts w2 entries w' Hs Ht Hrun.
  - destruct (baseline_run_from _ _ _ _ _ _ _ Hs Ht Hrun)
      as (sm & tm & w3 & Hsm & Htm & Hloop).
    by destruct (entries_sorted_union _ _ _ _ _ _ _ _ _ Hsm Htm Hloop).
  - destruct (variant_run_from _ _ _ _ _ _ _ Hs Ht Hrun)
      as (sm & tm & w3 & Hsm & Htm & Hloop).
    by destruct (entries_sorted_union _ _ _ _ _ _ _ _ _ Hsm Htm Hloop).
Qed.

Lemma C1_report_paths_witness :
  sorted_union (Platform0 := Sim.platform Scenarios.pages)
    ["/"; "/about"; "/contact"]
    [Scenarios.src "/"; Scenarios.src "/about"]
    [Scenarios.tgt "/about"; Scenarios.tgt "/contact"].
Proof.
  apply (proj1 (@C1_report_paths_sorted_union Sim.world
                  (Sim.platform Scenarios.pages))
           Sim.start
           [Scenarios.src "/"; Scenarios.src "/about"] Sim.start
           [Scenarios.tgt "/about"; Scenarios.tgt "/contact"] Sim.start
           [entry_of "/" true false; entry_of "/about" true true;
            entry_of "/contact" false false]
           (Baseline.run_test (Platform0 := Sim.platform Scenarios.pages)
              Sim.start).2);
    vm_compute; reflexivity.
Defined.

(** C2, on the baseline script: an exception of the capture procedure that
    is not a [WebDriverException] (a file that cannot be opened, say) is
    neither retried nor turned into [False].  At whichever attempt it
    occurs, the earlier ones having ended in a [WebDriverException], it
    leaves [take_fullpage_screenshot] as a raised exception. *)
Theorem C2_baseline_capture_raises {World : Type} `{!Platform World}
    (k : nat) (url out : string) (w w1 : World) (e : exn) (w2 : World) :
  (k < Baseline.RETRY_COUNT)%nat →
  attempts_fail Baseline.ACCEPT_XPATH 400 k url out w w1 →
  capture_page Baseline.ACCEPT_XPATH 400 url out w1 = (Raise e, w2) →
  is_WebDriverException e = false →
  Baseline.take_fullpage_screenshot url out w = (Raise e, w2).
Proof.
  intros Hk. apply attempt_loop_raise_after. by rewrite length_seq.
Qed.

Lemma C2_baseline_capture_raises_witness :
  (Baseline.take_fullpage_screenshot
     (Platform0 := Sim.platform Scenarios.read_only_image)
     (Scenarios.src "/") "regression_report_bumperdoc/home/source.png"
     Sim.start).1
  = Raise OSError.
Proof.
  rewrite (@C2_baseline_capture_raises Sim.world
             (Sim.platform Scenarios.read_only_image) 0
             (Scenarios.src "/") "regression_report_bumperdoc/home/source.png"
             Sim.start Sim.start OSError
             (capture_page (Platform0 := Sim.platform Scenarios.read_only_image)
                Baseline.ACCEPT_XPATH 400 (Scenarios.src "/")
                "regression_report_bumperdoc/home/source.png" Sim.start).2);
    [reflexivity | unfold Baseline.RETRY_COUNT; lia | reflexivity
    | vm_compute; reflexivity | reflexivity].
Defined.

(** With an image file that cannot be written, the baseline run ends in the
    exception before any report is made, while the variant reports the
    side as failed and goes on. *)
Example read_only_image_runs :
  (Baseline.run_test (Platform0 := Sim.platform Scenarios.read_only_image)
     Sim.start).1 = Raise OSError
  ∧ (Variant.run_test (Platform0 := Sim.platform Scenarios.read_only_image)
       Sim.start).1
    = Ret [entry_of "/" false true; entry_of "/about" true true].
Proof. split; vm_compute; reflexivity. Qed.

(** The variant's capture never raises: it returns [False] on any
    exception of its single attempt; the baseline retries after a
    [WebDriverException] and returns [False] once [RETRY_COUNT] attempts
    have failed that way. *)
Lemma capture_boundary {World : Type} `{!Platform World} :
  (∀ url out (w : World),
     ∃ b w', Variant.take_fullpage_screenshot url out w = (Ret b, w'))
  ∧ (∀ url out (w : World) e w1,
       capture_page Variant.ACCEPT_XPATH 500 url out w = (Raise e, w1) →
       Variant.take_fullpage_screenshot url out w = (Ret false, w1))
  ∧ (∀ url out (w w' : World),
       attempts_fail Baseline.ACCEPT_XPATH 400 Baseline.RETRY_COUNT
         url out w w' →
       Baseline.take_fullpage_screenshot url out w = (Ret false, w')).
Proof.
  split; [apply variant_take_returns|].
  split; [apply variant_take_failure|apply baseline_take_exhausted].
Qed.

(** ** Failed captures in the report of a run *)

Section FailedSides.
Context {World : Type} `{!Platform World}.
Implicit Types (rd title : string) (take : string → string → M World bool).

(** The page the loop starts on in the [i]-th place gets the [i]-th of the
    entries the loop appends, made by the loop body in the world the page
    starts in. *)
Lemma page_starts_entry rd take sm tm paths acc (w : World) es w' i p wi :
  compare_pages rd take sm tm paths acc w = (Ret es, w') →
  page_starts rd take sm tm paths w !! i = Some (p, wi) →
  ∃ e wi', es !! (length acc + i)%nat = Some e
           ∧ compare_page rd take sm tm p wi = (Ret e, wi').
Proof.
  revert acc w i. induction paths as [|q paths IH]; intros acc w i; [done|].
  simpl. intros (e & w1 & He & Hrest)%bind_Ret_inv. rewrite He.
  destruct i as [|i]; simpl.
  - intros [= <- <-]. exists e, w1. split; [|done].
    apply compare_pages_inv in Hrest as (new & -> & _).
    rewrite <-app_assoc, Nat.add_0_r. by apply list_lookup_middle.
  - intros Hi. destruct (IH _ _ _ Hrest Hi) as (e' & wi' & Hlook & Hpage).
    exists e', wi'. split; [|done].
    rewrite length_app in Hlook. simpl in Hlook.
    by replace (length acc + S i)%nat with (length acc + 1 + i)%nat by lia.
Qed.

(** The world [generate_html_report] ends in when the file can be
    opened. *)
Lemma generate_html_report_written rd title entries (w : World) f w1 :
  open_file (os_path_join rd "index.html") "w" w = (Ret f, w1) →
  (generate_html_report rd title entries w).2
  = (file_close f
       (file_write f (String.concat (String "010" "")
                        (report_html title entries)) w1).2).2.
Proof.
  intros Hopen. unfold generate_html_report, try_except, with_open.
  unfold bind at 1. rewrite Hopen.
  destruct (file_write f _ w1) as [[[]|e] w2]; cbn [snd]; unfold bind;
    by destruct (file_close f w2) as [[[]|e'] w3].
Qed.

Lemma failed_sides_of_loop rd title take fails sm tm
    (w2 : World) entries w3 w' :
  (∀ u out w w', fails u out w w' → take u out w = (Ret false, w')) →
  compare_pages rd take sm tm (all_paths sm tm) [] w2 = (Ret entries, w3) →
  generate_html_report rd title entries w3 = (Ret tt, w') →
  failed_sides_in_report rd title take fails sm tm w2 entries w'.
Proof.
  intros Hfails Hloop Hgen. exists w3. split; [done|]. split; [done|]. split.
  - intros f w4 Hopen.
    rewrite <-(generate_html_report_written rd title entries w3 f w4 Hopen).
    by rewrite Hgen.
  - intros i p wi w0 u Hstart Hdir Hu.
    destruct (page_starts_entry _ _ _ _ _ _ _ _ _ _ _ _ Hloop Hstart)
      as (e & wi' & He & Hpage). simpl in He.
    exists e. split; [done|].
    split; [by apply compare_page_inv in Hpage
                 as (? & ? & ? & ? & _ & _ & _ & ->)|].
    split; [apply report_html_block; by eapply list_elem_of_lookup_2|].
    apply (failed_side_reported_of_take rd take fails Hfails
             sm tm p u wi w0 e wi' Hdir Hpage Hu).
Qed.

Lemma baseline_run_report_inv (w : World) entries w' :
  Baseline.run_test w = (Ret entries, w') →
  ∃ srcs w1 tgts w2 sm tm w3,
    Baseline.get_sitemap_urls Baseline.SOURCE_SITEMAP_URL w = (Ret srcs, w1)
    ∧ Baseline.get_sitemap_urls Baseline.TARGET_SITEMAP_URL w1
      = (Ret tgts, w2)
    ∧ path_map srcs ∅ = Ret sm
    ∧ path_map (Baseline.with_fallback tgts) ∅ = Ret tm
    ∧ compare_pages Baseline.REPORT_DIR Baseline.take_fullpage_screenshot
        sm tm (all_paths sm tm) [] w2 = (Ret entries, w3)
    ∧ generate_html_report Baseline.REPORT_DIR "Visual Regression Report"
        entries w3 = (Ret tt, w').
Proof.
  unfold Baseline.run_test. intros H. inv_bind H. subst.
  destruct a4. eauto 15.
Qed.

Lemma variant_run_report_inv (w : World) entries w' :
  Variant.run_test w = (Ret entries, w') →
  ∃ srcs w1 tgts w2 sm tm w3,
    Variant.get_sitemap_urls Variant.SOURCE_SITEMAP_URL w = (Ret srcs, w1)
    ∧ Variant.get_sitemap_urls Variant.TARGET_SITEMAP_URL w1
      = (Ret tgts, w2)
    ∧ path_map srcs ∅ = Ret sm
    ∧ path_map tgts ∅ = Ret tm
    ∧ compare_pages Variant.REPORT_DIR Variant.take_fullpage_screenshot
        sm tm (all_paths sm tm) [] w2 = (Ret entries, w3)
    ∧ generate_html_report Variant.REPORT_DIR "Regression Report"
        entries w3 = (Ret tt, w').
Proof.
  unfold Variant.run_test. intros H. inv_bind H. subst.
  destruct a4. eauto 15.
Qed.
End FailedSides.

(** C3: in a run of either script that fetched the source URLs [srcs] and
    the target URLs [tgts], built the mappings [sm] and [tm] from them and
    produced its entries, the entries are the ones [run_test] hands to
    [generate_html_report], and the run ends where the report generator
    ends: when [index.html] can be opened, by writing to it the lines of
    the document made from these entries.  For every page of the
    reconciled union, taken in the world the run reaches it in: when the
    capture of a side fails on every attempt (in the baseline,
    [RETRY_COUNT] attempts ending in a [WebDriverException]; in the
    variant, the single attempt ending in an exception), the entry of the
    page has no image for that side and the side's failure flag set, and
    the entry's block of the written document carries the "not available"
    marker of that side on the line where the image would be. *)
Theorem C3_failed_capture_reported {World : Type} `{!Platform World} :
  (∀ (w : World) srcs w1 tgts w2 sm tm entries w',
     Baseline.get_sitemap_urls Baseline.SOURCE_SITEMAP_URL w = (Ret srcs, w1) →
     Baseline.get_sitemap_urls Baseline.TARGET_SITEMAP_URL w1 = (Ret tgts, w2) →
     path_map srcs ∅ = Ret sm →
     path_map (Baseline.with_fallback tgts) ∅ = Ret tm →
     Baseline.run_test w = (Ret entries, w') →
     failed_sides_in_report Baseline.REPORT_DIR "Visual Regression Report"
       Baseline.take_fullpage_screenshot
       (attempts_fail Baseline.ACCEPT_XPATH 400 Baseline.RETRY_COUNT)
       sm tm w2 entries w')
  ∧ (∀ (w : World) srcs w1 tgts w2 sm tm entries w',
       Variant.get_sitemap_urls Variant.SOURCE_SITEMAP_URL w = (Ret srcs, w1) →
       Variant.get_sitemap_urls Variant.TARGET_SITEMAP_URL w1 = (Ret tgts, w2) →
       path_map srcs ∅ = Ret sm →
       path_map tgts ∅ = Ret tm →
       Variant.run_test w = (Ret entries, w') →
       failed_sides_in_report Variant.REPORT_DIR "Regression Report"
         Variant.take_fullpage_screenshot
         (attempt_fails Variant.ACCEPT_XPATH 500)
         sm tm w2 entries w').
Proof.
  split; intros w srcs w1 tgts w2 sm tm entries w' Hs Ht Hsm Htm Hrun.
  - apply baseline_run_report_inv in Hrun
      as (srcs' & w1' & tgts' & w2' & sm' & tm' & w3
          & Hs' & Ht' & Hsm' & Htm' & Hloop & Hgen).
    rewrite Hs in Hs'. injection Hs' as <- <-.
    rewrite Ht in Ht'. injection Ht' as <- <-.
    rewrite Hsm in Hsm'. injection Hsm' as <-.
    rewrite Htm in Htm'. injection Htm' as <-.
    eapply failed_sides_of_loop; [|done..].
    apply baseline_take_exhausted.
  - apply variant_run_report_inv in Hrun
      as (srcs' & w1' & tgts' & w2' & sm' & tm' & w3
          & Hs' & Ht' & Hsm' & Htm' & Hloop & Hgen).
    rewrite Hs in Hs'. injection Hs' as <- <-.
    rewrite Ht in Ht'. injection Ht' as <- <-.
    rewrite Hsm in Hsm'. injection Hsm' as <-.
    rewrite Htm in Htm'. injection Htm' as <-.
    eapply failed_sides_of_loop; [|done..].
    intros u out w0 w0' [e He]. by eapply variant_take_failure.
Qed.

Lemma C3_failed_capture_witness :
  ∃ e,
    [entry_of "/" true false; entry_of "/about" true true;
     entry_of "/contact" false false] !! 2%nat = Some e
    ∧ target e = None ∧ target_failed e = true
    ∧ entry_html e !! 3%nat = Some TARGET_MISSING.
Proof.
  set (P := Sim.platform Scenarios.pages).
  set (sm := <["/about" := Scenarios.src "/about"]>
               (<["/" := Scenarios.src "/"]> (∅ : gmap string string))).
  set (tm := <["/contact" := Scenarios.tgt "/contact"]>
               (<["/about" := Scenarios.tgt "/about"]>
                  (∅ : gmap string string))).
  set (u := Scenarios.tgt "/contact").
  set (out := target_img Baseline.REPORT_DIR "/contact").
  set (wi := (compare_pages (Platform0 := P) Baseline.REPORT_DIR
                Baseline.take_fullpage_screenshot sm tm ["/"; "/about"] []
                Sim.start).2).
  set (wa := (capture_page (Platform0 := P) Baseline.ACCEPT_XPATH 400 u out
                wi).2).
  set (wb := (capture_page (Platform0 := P) Baseline.ACCEPT_XPATH 400 u out
                wa).2).
  destruct (proj1 (@C3_failed_capture_reported Sim.world P)
              Sim.start
              [Scenarios.src "/"; Scenarios.src "/about"] Sim.start
              [Scenarios.tgt "/about"; Scenarios.tgt "/contact"] Sim.start
              sm tm
              [entry_of "/" true false; entry_of "/about" true true;
               entry_of "/contact" false false]
              (Baseline.run_test (Platform0 := P) Sim.start).2)
    as (w3 & _ & _ & _ & Hpages); [vm_compute; reflexivity..|].
  destruct (Hpages 2%nat "/contact" wi wi u)
    as (e & He & _ & _ & _ & Htgt);
    [vm_compute; reflexivity | reflexivity | reflexivity |].
  exists e. split; [exact He|].
  apply (Htgt false wi wb); [reflexivity | reflexivity |].
  exists wa. split; [vm_compute; reflexivity|].
  exists wb. split; [vm_compute; reflexivity|reflexivity].
Defined.

(** In the scenario of the witness the document written to [index.html]
    by the run is the one made from the entries of the run, with the
    target marker in the block of [/contact]. *)
Example pages_report_file :
  let P := Sim.platform Scenarios.pages in
  let entries := [entry_of "/" true false; entry_of "/about" true true;
                  entry_of "/contact" false false] in
  Sim.disk (Baseline.run_test (Platform0 := P) Sim.start).2
    !! "regression_report_bumperdoc/index.html"
  = Some (String.concat (String "010" "")
            (report_html "Visual Regression Report" entries))
  ∧ report_html "Visual Regression Report" entries !! 17%nat
    = Some TARGET_MISSING.
Proof. split; vm_compute; reflexivity. Qed.

(** C4, as the specification states it, fails on the variant script, which
    has no fallback: with a target sitemap that cannot be fetched and a
    source sitemap listing only [/about], the target fetch gives no URL and
    the one reconciled path is [/about]; the root path is not among the
    entries. *)
Lemma C4_variant_no_root_path :
  let P := Sim.platform Scenarios.target_down in
  (Variant.get_sitemap_urls (Platform0 := P) Variant.TARGET_SITEMAP_URL
     Sim.start).1 = Ret []
  ∧ (Variant.run_test (Platform0 := P) Sim.start).1
    = Ret [entry_of "/about" true false]
  ∧ "/" ∉ path <$> [entry_of "/about" true false].
Proof.
  split; [vm_compute; reflexivity|].
  split; [vm_compute; reflexivity|].
  intros [?|?%elem_of_nil]%elem_of_cons; done.
Qed.

(** C4, amended: in the baseline script, when the target fetch gives no URL
    the reconciler works on the single fallback URL [TARGET_SITE + "/"],
    and, [urlparse] giving that URL the path [/], a run that produces its
    entries has an entry for the root path [/].  In the variant script
    nothing is substituted: the paths of the entries are exactly the paths
    of the source URLs. *)
Theorem C4_target_fallback {World : Type} `{!Platform World} :
  (∀ w srcs w1 w2 entries w',
     Baseline.get_sitemap_urls Baseline.SOURCE_SITEMAP_URL w = (Ret srcs, w1) →
     Baseline.get_sitemap_urls Baseline.TARGET_SITEMAP_URL w1 = (Ret [], w2) →
     urlparse_path (Baseline.TARGET_SITE +:+ "/") = Ret "/" →
     Baseline.run_test w = (Ret entries, w') →
     Baseline.with_fallback [] = [Baseline.TARGET_SITE +:+ "/"]
     ∧ "/" ∈ path <$> entries)
  ∧ (∀ w srcs w1 w2 entries w',
       Variant.get_sitemap_urls Variant.SOURCE_SITEMAP_URL w = (Ret srcs, w1) →
       Variant.get_sitemap_urls Variant.TARGET_SITEMAP_URL w1 = (Ret [], w2) →
       Variant.run_test w = (Ret entries, w') →
       ∀ p, p ∈ path <$> entries ↔ path_of srcs p).
Proof.
  split.
  - intros w srcs w1 w2 entries w' Hs Ht Hroot Hrun. split; [done|].
    destruct (baseline_run_from _ _ _ _ _ _ _ Hs Ht Hrun)
      as (sm & tm & w3 & Hsm & Htm & Hloop).
    destruct (entries_sorted_union _ _ _ _ _ _ _ _ _ Hsm Htm Hloop)
      as (_ & _ & _ & Hmem).
    apply Hmem. right. exists (Baseline.TARGET_SITE +:+ "/").
    split; [apply list_elem_of_singleton; reflexivity|done].
  - intros w srcs w1 w2 entries w' Hs Ht Hrun p.
    destruct (variant_run_from _ _ _ _ _ _ _ Hs Ht Hrun)
      as (sm & tm & w3 & Hsm & Htm & Hloop).
    destruct (entries_sorted_union _ _ _ _ _ _ _ _ _ Hsm Htm Hloop)
      as (_ & _ & _ & Hmem).
    rewrite Hmem. split; [|by left].
    intros [?|(u & ?%elem_of_nil & _)]; done.
Qed.

Lemma C4_target_fallback_witness :
  "/" ∈ path <$> [entry_of "/" false true; entry_of "/about" true false].
Proof.
  apply (proj1 (@C4_target_fallback Sim.world
                  (Sim.platform Scenarios.target_down))
           Sim.start [Scenarios.src "/about"] Sim.start Sim.start
           [entry_of "/" false true; entry_of "/about" true false]
           (Baseline.run_test (Platform0 := Sim.platform Scenarios.target_down)
              Sim.start).2);
    vm_compute; reflexivity.
Defined.

(** C7, as the specification states it, fails for a status outside 2xx that
    is not an error status: a sitemap served with status 300 and holding
    one [<loc>] entry gives that URL, not zero URLs. *)
Lemma C7_status_300_gives_urls :
  let P := Sim.platform Scenarios.multiple_choices in
  let r := Response 300 (Sim.sitemap_xml [Scenarios.src "/"]) in
  requests_get (Platform := P) Baseline.SOURCE_SITEMAP_URL (Some 15%Z)
    Sim.start = (Ret r, Sim.start)
  ∧ ¬ (200 ≤ status_code r < 300)%Z
  ∧ Baseline.get_sitemap_urls (Platform0 := P) Baseline.SOURCE_SITEMAP_URL
      Sim.start = (Ret [Scenarios.src "/"], Sim.start)
  ∧ Variant.get_sitemap_urls (Platform0 := P) Variant.SOURCE_SITEMAP_URL
      Sim.start = (Ret [Scenarios.src "/"], Sim.start).
Proof.
  split; [vm_compute; reflexivity|]. split; [simpl; lia|].
  split; vm_compute; reflexivity.
Qed.

(** C7, amended: for a response whose status is not an error status
    (400..599) and whose document holds N [<loc>] entries, the fetcher of
    either script returns the N texts, stripped of surrounding white space,
    in document order; for a network error, an error status (400..599), a
    parse failure or a document without [<loc>] entries it returns no URL;
    and it never raises. *)
Theorem C7_fetcher_contract {World : Type} `{!Platform World} :
  fetcher_contract Baseline.get_sitemap_urls (Some 15%Z)
  ∧ fetcher_contract Variant.get_sitemap_urls None.
Proof. split; [apply baseline_fetcher|apply variant_fetcher]. Qed.

Lemma C7_fetcher_witness :
  Baseline.get_sitemap_urls (Platform0 := Sim.platform Scenarios.pages)
    Baseline.SOURCE_SITEMAP_URL Sim.start
  = (Ret [Scenarios.src "/"; Scenarios.src "/about"], Sim.start).
Proof.
  refine (proj1 (proj1 (proj1 (@C7_fetcher_contract Sim.world
                                 (Sim.platform Scenarios.pages)))
                   Baseline.SOURCE_SITEMAP_URL Sim.start
                   (Response 200
                      (Sim.sitemap_xml
                         [Scenarios.src "/"; Scenarios.src "/about"]))
                   Sim.start
                   [Scenarios.src "/"; Scenarios.src "/about"] _ _ _)).
  - vm_compute; reflexivity.
  - simpl; lia.
  - vm_compute; reflexivity.
Defined.

(** C8: for source URLs with the paths A and B and target URLs with the
    paths B and C, three distinct paths, the reconciled paths are A, B and
    C, each once, in ascending order; A is found in the source mapping
    only, B in both mappings and C in the target mapping only, so that the
    entry made for A has no target side and the entry made for C no source
    side. *)
Theorem C8_reconcile_three_paths {World : Type} `{!Platform World}
    (uA uB uB' uC A B C : string) :
  A ≠ B → A ≠ C → B ≠ C →
  urlparse_path uA = Ret A → urlparse_path uB = Ret B →
  urlparse_path uB' = Ret B → urlparse_path uC = Ret C →
  ∃ sm tm,
    path_map [uA; uB] ∅ = Ret sm
    ∧ path_map [uB'; uC] ∅ = Ret tm
    ∧ all_paths sm tm ≡ₚ [A; B; C]
    ∧ StronglySorted String.le (all_paths sm tm)
    ∧ (sm !! A = Some uA ∧ tm !! A = None)
    ∧ (sm !! B = Some uB ∧ tm !! B = Some uB')
    ∧ (sm !! C = None ∧ tm !! C = Some uC)
    ∧ (∀ rd take e,
         made_for rd take sm tm A e →
         target e = None ∧ target_failed e = true)
    ∧ (∀ rd take e,
         made_for rd take sm tm C e →
         source e = None ∧ source_failed e = true).
Proof.
  intros HAB HAC HBC HA HB HB' HC.
  exists (<[B := uB]> (<[A := uA]> ∅)), (<[C := uC]> (<[B := uB']> ∅)).
  assert (Hsm : path_map [uA; uB] ∅ = Ret (<[B := uB]> (<[A := uA]> ∅)))
    by (simpl; by rewrite HA, HB).
  assert (Htm : path_map [uB'; uC] ∅ = Ret (<[C := uC]> (<[B := uB']> ∅)))
    by (simpl; by rewrite HB', HC).
  assert (HtA : (<[C := uC]> (<[B := uB']> ∅) : gmap string string) !! A = None)
    by by simplify_map_eq.
  assert (HsC : (<[B := uB]> (<[A := uA]> ∅) : gmap string string) !! C = None)
    by by simplify_map_eq.
  split; [done|]. split; [done|]. split.
  - apply NoDup_Permutation.
    + apply all_paths_NoDup.
    + rewrite !NoDup_cons, NoDup_nil, !elem_of_cons, !elem_of_nil.
      intuition congruence.
    + intros p. rewrite all_paths_elem, <-!elem_of_dom.
      rewrite !dom_insert_L, dom_empty_L.
      rewrite !elem_of_union, !elem_of_singleton, elem_of_empty.
      rewrite !elem_of_cons, elem_of_nil. tauto.
  - split; [apply all_paths_sorted|].
    split; [by simplify_map_eq|]. split; [by simplify_map_eq|].
    split; [by simplify_map_eq|]. split.
    + intros rd take e He. by eapply made_for_target_absent.
    + intros rd take e He. by eapply made_for_source_absent.
Qed.

Lemma C8_reconcile_witness :
  ∃ sm tm : gmap string string,
    path_map (Platform0 := Sim.platform Scenarios.pages)
      [Scenarios.src "/"; Scenarios.src "/about"] ∅ = Ret sm
    ∧ path_map (Platform0 := Sim.platform Scenarios.pages)
        [Scenarios.tgt "/about"; Scenarios.tgt "/contact"] ∅ = Ret tm
    ∧ all_paths sm tm ≡ₚ ["/"; "/about"; "/contact"]
    ∧ StronglySorted String.le (all_paths sm tm).
Proof.
  destruct (@C8_reconcile_three_paths Sim.world (Sim.platform Scenarios.pages)
              (Scenarios.src "/") (Scenarios.src "/about")
              (Scenarios.tgt "/about") (Scenarios.tgt "/contact")
              "/" "/about" "/contact")
    as (sm & tm & Hsm & Htm & Hperm & Hsorted & _);
    [discriminate | discriminate | discriminate
    | reflexivity | reflexivity | reflexivity | reflexivity |].
  exists sm, tm. auto.
Defined.

(** C9: the mapping built from a sequence of URLs sends a path to the last
    URL of the sequence that has this path, whatever URLs with the same
    path come before it; and the mapping is built whenever [urlparse]
    accepts every URL, duplicates or not. *)
Theorem C9_path_map_last_wins {World : Type} `{!Platform World}
    (front back : list string) (u p : string) :
  urlparse_path u = Ret p →
  (∀ v, v ∈ back → urlparse_path v ≠ Ret p) →
  (∀ v, v ∈ (front ++ u :: back)%list → ∃ q, urlparse_path v = Ret q) →
  ∃ m, path_map (front ++ u :: back) ∅ = Ret m ∧ m !! p = Some u.
Proof.
  intros Hp Hback Hall.
  destruct (path_map_total _ ∅ Hall) as [m Hm].
  exists m. split; [done|]. by eapply path_map_last.
Qed.

Lemma C9_path_map_last_wins_witness :
  ∃ m : gmap string string,
    path_map (Platform0 := Sim.platform Scenarios.pages)
      ["https://a.org/x?v=1"; "https://a.org/y"; "https://a.org/x?v=2";
       "https://a.org/z"] ∅ = Ret m
    ∧ m !! "/x" = Some "https://a.org/x?v=2".
Proof.
  apply (@C9_path_map_last_wins Sim.world (Sim.platform Scenarios.pages)
           ["https://a.org/x?v=1"; "https://a.org/y"] ["https://a.org/z"]
           "https://a.org/x?v=2" "/x").
  - reflexivity.
  - intros v ->%list_elem_of_singleton. discriminate.
  - intros v _. eexists. reflexivity.
Defined.

(** C10: in every entry of a run, the source image is absent exactly when
    [source_failed] is set, and the target image exactly when
    [target_failed] is set; and an entry whose path is the path of no URL
    of a site has that side's image absent and its failure flag set, as
    after a failed capture. *)
Theorem C10_entry_flags {World : Type} `{!Platform World} :
  (∀ w srcs w1 tgts w2 entries w',
     Baseline.get_sitemap_urls Baseline.SOURCE_SITEMAP_URL w = (Ret srcs, w1) →
     Baseline.get_sitemap_urls Baseline.TARGET_SITEMAP_URL w1 = (Ret tgts, w2) →
     Baseline.run_test w = (Ret entries, w') →
     ∀ e, e ∈ entries →
       flags_agree e
       ∧ (¬ path_of srcs (path e) →
          source e = None ∧ source_failed e = true)
       ∧ (¬ path_of (Baseline.with_fallback tgts) (path e) →
          target e = None ∧ target_failed e = true))
  ∧ (∀ w srcs w1 tgts w2 entries w',
       Variant.get_sitemap_urls Variant.SOURCE_SITEMAP_URL w = (Ret srcs, w1) →
       Variant.get_sitemap_urls Variant.TARGET_SITEMAP_URL w1 = (Ret tgts, w2) →
       Variant.run_test w = (Ret entries, w') →
       ∀ e, e ∈ entries →
         flags_agree e
         ∧ (¬ path_of srcs (path e) →
            source e = None ∧ source_failed e = true)
         ∧ (¬ path_of tgts (path e) →
            target e = None ∧ target_failed e = true)).
Proof.
  split; intros w srcs w1 tgts w2 entries w' Hs Ht Hrun.
  - destruct (baseline_run_from _ _ _ _ _ _ _ Hs Ht Hrun)
      as (sm & tm & w3 & Hsm & Htm & Hloop).
    by eapply entries_flags.
  - destruct (variant_run_from _ _ _ _ _ _ _ Hs Ht Hrun)
      as (sm & tm & w3 & Hsm & Htm & Hloop).
    by eapply entries_flags.
Qed.

Lemma C10_entry_flags_witness :
  let e := entry_of "/contact" false false in
  flags_agree e
  ∧ (¬ path_of (Platform0 := Sim.platform Scenarios.pages)
         [Scenarios.src "/"; Scenarios.src "/about"] (path e) →
     source e = None ∧ source_failed e = true)
  ∧ (¬ path_of (Platform0 := Sim.platform Scenarios.pages)
         [Scenarios.tgt "/about"; Scenarios.tgt "/contact"] (path e) →
     target e = None ∧ target_failed e = true).
Proof.
  apply (proj1 (@C10_entry_flags Sim.world (Sim.platform Scenarios.pages))
           Sim.start
           [Scenarios.src "/"; Scenarios.src "/about"] Sim.start
           [Scenarios.tgt "/about"; Scenarios.tgt "/contact"] Sim.start
           [entry_of "/" true false; entry_of "/about" true true;
            entry_of "/contact" false false]
           (Baseline.run_test (Platform0 := Sim.platform Scenarios.pages)
              Sim.start).2);
    [vm_compute; reflexivity .. |].
  do 2 right. left.
Defined.

(** * Further properties of the code *)

(** ** Directories and image files *)

Section Files.
Implicit Types (c a : ascii) (s t rd p : string).

Lemma app_nil_l s : "" +:+ s = s.
Proof. done. Qed.

Lemma app_cons a s t : String a s +:+ t = String a (s +:+ t).
Proof. done. Qed.

Lemma app_assoc s t u : (s +:+ t) +:+ u = s +:+ (t +:+ u).
Proof.
  induction s as [|a s IH]; [done|]. by rewrite !app_cons, IH.
Qed.

Lemma app_empty s t : s +:+ t = "" → s = "".
Proof. by destruct s. Qed.

Lemma rev_app_app s t acc :
  String.rev_app (s +:+ t) acc = String.rev_app t (String.rev_app s acc).
Proof.
  revert acc. induction s as [|a s IH]; intros acc; [done|].
  rewrite app_cons. simpl. apply IH.
Qed.

(** The first character of a reversed string is one of its characters. *)
Lemma rev_app_head c s acc :
  s ≠ "" → Py.contains c s = false →
  Py.startswith (String c "") (String.rev_app s acc) = false.
Proof.
  revert acc. induction s as [|a s IH]; intros acc Hne; [done|]. simpl.
  intros [Ha Hs]%orb_false_elim. destruct s as [|b s].
  - simpl. rewrite Ascii.eqb_sym, Ha. done.
  - by apply IH.
Qed.

(** A string that ends in a slug does not end in a slash. *)
Lemma ends_in_slug t p :
  Py.startswith "/" (String.rev (t +:+ get_path_slug p)) = false.
Proof.
  unfold String.rev. rewrite rev_app_app.
  apply rev_app_head; [apply slug_nonempty|apply slug_no_slash].
Qed.

Lemma startswith_absent c s t :
  s ≠ "" → Py.contains c s = false →
  Py.startswith (String c "") (s +:+ t) = false.
Proof.
  destruct s as [|a s]; [done|]. intros _. rewrite app_cons. simpl.
  intros [Ha _]%orb_false_elim. by rewrite Ascii.eqb_sym, Ha.
Qed.

Lemma startswith_absent_char c s :
  Py.contains c s = false → Py.startswith (String c "") s = false.
Proof.
  destruct s as [|a s]; [done|]. simpl.
  intros [Ha _]%orb_false_elim. by rewrite Ascii.eqb_sym, Ha.
Qed.

Lemma os_path_join_relative rd s :
  rd ≠ "" → Py.startswith "/" (String.rev rd) = false →
  Py.startswith "/" s = false →
  os_path_join rd s = rd +:+ "/" +:+ s.
Proof.
  intros Hne Hend Hrel. unfold os_path_join. rewrite Hrel, Hend.
  by rewrite bool_decide_eq_false_2.
Qed.

Lemma page_dir_under rd p :
  rd ≠ "" → Py.startswith "/" (String.rev rd) = false →
  page_dir rd p = rd +:+ "/" +:+ get_path_slug p.
Proof.
  intros Hne Hend. apply os_path_join_relative; [done..|].
  apply startswith_absent_char, slug_no_slash.
Qed.
End Files.

Lemma replace_fixed old new s t :
  Py.contains new t = false → Py.replace old new s = t → s = t.
Proof.
  revert t. induction s as [|a s IH]; intros [|b t]; simpl; try done.
  intros [Hb Ht]%orb_false_elim [= Ha Hs]. f_equal; [|by apply IH].
  destruct (Ascii.eqb_spec a old); [|done].
  subst b. by rewrite Ascii.eqb_refl in Hb.
Qed.

(** A slug without underscore that is not [home] is the path stripped of
    its slashes. *)
Lemma slug_is_stripped_path p t :
  Py.contains "_" t = false → Py.contains "/" t = false →
  t ≠ "" → t ≠ "home" →
  get_path_slug p = t ↔ Py.strip "/" p = t.
Proof.
  intros Hu Hs Hne Hhome. unfold get_path_slug, Py.or_else. split.
  - destruct (Py.truthy _) eqn:Htruthy; [|done].
    by apply replace_fixed.
  - intros ->. rewrite replace_absent by done.
    by apply truthy_true in Hne as ->.
Qed.

(** X1: the directory of a page is the report directory followed by a
    slash and the slug, and the slug is one path component: it is never
    empty and holds no slash.  That component is [..] exactly when the
    path stripped of its slashes is [..], and [.] exactly when it is
    [.]: for those paths the directory of the page is [REPORT_DIR/..] or
    [REPORT_DIR/.]. *)
Theorem X1_page_dir_in_report_dir (rd p : string) :
  rd ≠ "" → Py.startswith "/" (String.rev rd) = false →
  get_path_slug p ≠ ""
  ∧ Py.contains "/" (get_path_slug p) = false
  ∧ page_dir rd p = rd +:+ "/" +:+ get_path_slug p
  ∧ (get_path_slug p = ".." ↔ Py.strip "/" p = "..")
  ∧ (get_path_slug p = "." ↔ Py.strip "/" p = ".").
Proof.
  intros Hne Hend. split; [apply slug_nonempty|]. split; [apply slug_no_slash|].
  split; [by apply page_dir_under|].
  split; by apply slug_is_stripped_path.
Qed.

Lemma X1_page_dir_witness :
  page_dir Baseline.REPORT_DIR "/../" = "regression_report_bumperdoc/.."
  ∧ page_dir Baseline.REPORT_DIR "/services/dent-repair/"
    = "regression_report_bumperdoc/services_dent-repair".
Proof.
  split.
  - apply (X1_page_dir_in_report_dir Baseline.REPORT_DIR "/../");
      [discriminate|reflexivity].
  - apply (X1_page_dir_in_report_dir Baseline.REPORT_DIR
             "/services/dent-repair/"); [discriminate|reflexivity].
Defined.

(** X2: the image link of an entry, read from the report directory where
    [index.html] lies, names the very file the capture of that side is
    told to write. *)
Theorem X2_image_link_names_written_file (rd p : string) :
  rd ≠ "" → Py.startswith "/" (String.rev rd) = false →
  os_path_join rd (get_path_slug p +:+ "/source.png") = source_img rd p
  ∧ os_path_join rd (get_path_slug p +:+ "/target.png") = target_img rd p.
Proof.
  intros Hne Hend.
  unfold source_img, target_img. rewrite (page_dir_under rd p Hne Hend).
  assert (Hjoin : ∀ file, Py.startswith "/" file = false →
    os_path_join (rd +:+ "/" +:+ get_path_slug p) file
    = rd +:+ "/" +:+ get_path_slug p +:+ "/" +:+ file).
  { intros file Hfile. rewrite os_path_join_relative; [|..|done].
    - by rewrite !app_assoc.
    - intros Heq%app_empty. done.
    - rewrite <-app_assoc. apply ends_in_slug. }
  rewrite !Hjoin by done.
  split; (rewrite os_path_join_relative;
          [done|done|done
          |apply startswith_absent; [apply slug_nonempty|apply slug_no_slash]]).
Qed.

Lemma X2_image_link_witness :
  os_path_join Variant.REPORT_DIR (get_path_slug "/about" +:+ "/source.png")
  = source_img Variant.REPORT_DIR "/about".
Proof.
  apply (X2_image_link_names_written_file Variant.REPORT_DIR "/about");
    [discriminate|reflexivity].
Defined.

(** ** The path mappings *)

Section Mappings.
Context {World : Type} `{!Platform World}.
Implicit Types (urls : list string) (m : gmap string string).

Lemma path_map_values urls m m' p u :
  path_map urls m = Ret m' → m' !! p = Some u →
  m !! p = Some u ∨ (u ∈ urls ∧ urlparse_path u = Ret p).
Proof.
  revert m. induction urls as [|v urls IH]; intros m; simpl.
  - intros [= ->]. by left.
  - destruct (urlparse_path v) as [q|] eqn:Hq; [|done].
    intros Hm Hp. destruct (IH _ Hm Hp) as [Hin|[Hin Hu]].
    + apply lookup_insert_Some in Hin as [[-> ->]|[_ Hin]]; [|by left].
      right. split; [left|done].
    + right. split; [by right|done].
Qed.

Lemma path_map_head u urls m m' :
  path_map (u :: urls) m = Ret m' → ∃ p, urlparse_path u = Ret p.
Proof. simpl. destruct (urlparse_path u); [eauto|done]. Qed.

Lemma path_map_raise_iff urls m e :
  path_map urls m = Raise e
  ↔ ∃ front u back,
      urls = (front ++ u :: back)%list
      ∧ (∀ v, v ∈ front → ∃ q, urlparse_path v = Ret q)
      ∧ urlparse_path u = Raise e.
Proof.
  split.
  - revert m. induction urls as [|v urls IH]; intros m; simpl; [done|].
    destruct (urlparse_path v) as [q|e'] eqn:Hq.
    + intros (front & u & back & -> & Hfront & Hu)%IH.
      exists (v :: front), u, back. split; [done|]. split; [|done].
      intros v' [->|Hv']%elem_of_cons; eauto.
    + intros [= ->]. exists [], v, urls. split; [done|]. split; [|done].
      by intros v' ?%elem_of_nil.
  - intros (front & u & back & -> & Hfront & Hu). rewrite path_map_app.
    destruct (path_map_total front m Hfront) as [m1 ->]. simpl.
    by rewrite Hu.
Qed.
End Mappings.

(** X3: every URL stored in a path mapping is one of the URLs the mapping
    was built from, and the key it is stored under is its own path. *)
Theorem X3_path_map_stores_input_urls {World : Type} `{!Platform World}
    (urls : list string) (m : gmap string string) (p u : string) :
  path_map urls ∅ = Ret m → m !! p = Some u →
  u ∈ urls ∧ urlparse_path u = Ret p.
Proof.
  intros Hm Hp. by destruct (path_map_values _ _ _ _ _ Hm Hp) as [?|?].
Qed.

Lemma X3_path_map_witness :
  "https://a.org/x?v=2" ∈ ["https://a.org/x?v=1"; "https://a.org/x?v=2"]
  ∧ urlparse_path (Platform := Sim.platform Scenarios.pages)
      "https://a.org/x?v=2" = Ret "/x".
Proof.
  apply (@X3_path_map_stores_input_urls Sim.world
           (Sim.platform Scenarios.pages)
           ["https://a.org/x?v=1"; "https://a.org/x?v=2"]
           {[ "/x" := "https://a.org/x?v=2" ]}); vm_compute; reflexivity.
Defined.

(** X4: building a path mapping fails exactly when [urlparse] rejects one
    of the URLs; the exception is that of the first rejected URL, and no
    mapping is produced, whatever URLs were accepted before. *)
Theorem X4_path_map_fails_on_first_rejected_url {World : Type}
    `{!Platform World} (urls : list string) (m : gmap string string)
    (e : exn) :
  path_map urls m = Raise e
  ↔ ∃ front u back,
      urls = (front ++ u :: back)%list
      ∧ (∀ v, v ∈ front → ∃ q, urlparse_path v = Ret q)
      ∧ urlparse_path u = Raise e.
Proof. apply path_map_raise_iff. Qed.

(** ** Outcomes of the capture function *)

Section Outcomes.
Context {World : Type} `{!Platform World}.
Implicit Types (url out : string) (w : World).

Lemma bind_Raise_inv {A B} (m : M World A) (f : A → M World B) w e w' :
  bind m f w = (Raise e, w') →
  m w = (Raise e, w') ∨ ∃ a w1, m w = (Ret a, w1) ∧ f a w1 = (Raise e, w').
Proof.
  unfold bind. destruct (m w) as [[a|e1] w1]; [eauto|].
  intros [= -> ->]. by left.
Qed.

(** What each outcome of the baseline's retry loop says about the attempts
    that were made. *)
Lemma attempt_loop_outcome attempts url out w :
  match Baseline.attempt_loop attempts url out w with
  | (Ret true, w') =>
      ∃ k w1, (k < length attempts)%nat
        ∧ attempts_fail Baseline.ACCEPT_XPATH 400 k url out w w1
        ∧ capture_page Baseline.ACCEPT_XPATH 400 url out w1 = (Ret tt, w')
  | (Ret false, w') =>
      attempts_fail Baseline.ACCEPT_XPATH 400 (length attempts) url out w w'
  | (Raise e, w') =>
      is_WebDriverException e = false
      ∧ ∃ k w1, (k < length attempts)%nat
          ∧ attempts_fail Baseline.ACCEPT_XPATH 400 k url out w w1
          ∧ capture_page Baseline.ACCEPT_XPATH 400 url out w1 = (Raise e, w')
  end.
Proof.
  revert w. induction attempts as [|n attempts IH]; intros w; [done|].
  destruct (capture_page Baseline.ACCEPT_XPATH 400 url out w)
    as [[[]|e] w1] eqn:Hcap.
  - rewrite (attempt_loop_success _ _ _ _ _ _ Hcap).
    exists 0%nat, w. simpl. split; [lia|done].
  - destruct (is_WebDriverException e) eqn:He.
    + destruct e; try discriminate.
      rewrite (attempt_loop_retry _ _ _ _ _ _ Hcap). specialize (IH w1).
      destruct (Baseline.attempt_loop attempts url out w1) as [[[]|e'] w'].
      * destruct IH as (k & w2 & Hk & Hfail & Hok).
        exists (S k), w2. simpl. split; [lia|]. split; [eauto|done].
      * simpl. eauto.
      * destruct IH as (He' & k & w2 & Hk & Hfail & Hraise).
        split; [done|]. exists (S k), w2. simpl.
        split; [lia|]. split; [eauto|done].
    + rewrite (attempt_loop_raise _ _ _ _ _ _ _ Hcap He).
      split; [done|]. exists 0%nat, w. simpl. split; [lia|done].
Qed.

(** A capture that went through did every step of the procedure. *)
Lemma capture_page_success_inv xpath step url out w w' :
  capture_page xpath step url out w = (Ret tt, w') →
  ∃ w0 w1 screenshot w2 f w3 data png w4,
    driver_get url w = (Ret tt, w0)
    ∧ driver_capture_screenshot w1 = (Ret screenshot, w2)
    ∧ open_file out "wb" w2 = (Ret f, w3)
    ∧ screenshot !! "data" = Some data
    ∧ b64decode data = Ret png
    ∧ file_write f png w3 = (Ret tt, w4)
    ∧ file_close f w4 = (Ret tt, w').
Proof.
  unfold capture_page. intros H.
  apply bind_Ret_inv in H as ([] & w0 & Hget & H).
  apply bind_Ret_inv in H as (? & wa & _ & H).
  apply bind_Ret_inv in H as (h & wb & _ & H).
  apply bind_Ret_inv in H as (ys & wc & _ & H).
  apply bind_Ret_inv in H as (? & wd & _ & H).
  apply bind_Ret_inv in H as (? & we & _ & H).
  apply bind_Ret_inv in H as (? & w1 & _ & H).
  apply bind_Ret_inv in H as (screenshot & w2 & Hshot & H).
  unfold with_open in H.
  apply bind_Ret_inv in H as (f & w3 & Hopen & H).
  destruct (bind _ _ w3) as [[[]|e] w4] eqn:Hbody in H.
  - apply bind_Ret_inv in H as ([] & w5 & Hclose & [_ ->]%ret_inv).
    apply bind_Ret_inv in Hbody as (data & ? & [Hdata ->]%lift_Ret_inv & Hbody).
    apply bind_Ret_inv in Hbody as (png & ? & [Hpng ->]%lift_Ret_inv & Hwrite).
    destruct (screenshot !! "data") as [d|] eqn:Hd; [|done].
    injection Hdata as ->.
    exists w0, w1, screenshot, w2, f, w3, data, png, w4. eauto 10.
  - apply bind_Ret_inv in H as (? & ? & _ & H). done.
Qed.
End Outcomes.

(** X5: each outcome of the baseline's [take_fullpage_screenshot] tells what
    the attempts did.  [True]: fewer than [RETRY_COUNT] attempts ended in a
    [WebDriverException] and the next one went through.  [False]: exactly
    [RETRY_COUNT] attempts were made and every one ended in a
    [WebDriverException].  An exception: it is not a
    [WebDriverException], and it was raised by an attempt made after fewer
    than [RETRY_COUNT] such failures. *)
Theorem X5_baseline_capture_outcomes {World : Type} `{!Platform World}
    (url out : string) (w : World) :
  match Baseline.take_fullpage_screenshot url out w with
  | (Ret true, w') =>
      ∃ k w1, (k < Baseline.RETRY_COUNT)%nat
        ∧ attempts_fail Baseline.ACCEPT_XPATH 400 k url out w w1
        ∧ capture_page Baseline.ACCEPT_XPATH 400 url out w1 = (Ret tt, w')
  | (Ret false, w') =>
      attempts_fail Baseline.ACCEPT_XPATH 400 Baseline.RETRY_COUNT
        url out w w'
  | (Raise e, w') =>
      is_WebDriverException e = false
      ∧ ∃ k w1, (k < Baseline.RETRY_COUNT)%nat
          ∧ attempts_fail Baseline.ACCEPT_XPATH 400 k url out w w1
          ∧ capture_page Baseline.ACCEPT_XPATH 400 url out w1 = (Raise e, w')
  end.
Proof. apply (attempt_loop_outcome (seq 1 Baseline.RETRY_COUNT)). Qed.

(** X6: a capture procedure that returns has loaded the page, taken a
    screenshot that carries a [data] field, opened the output file for
    binary writing, written the decoded data to it and closed it. *)
Theorem X6_capture_success_wrote_image {World : Type} `{!Platform World}
    (xpath : string) (step : Z) (url out : string) (w w' : World) :
  capture_page xpath step url out w = (Ret tt, w') →
  ∃ w0 w1 screenshot w2 f w3 data png w4,
    driver_get url w = (Ret tt, w0)
    ∧ driver_capture_screenshot w1 = (Ret screenshot, w2)
    ∧ open_file out "wb" w2 = (Ret f, w3)
    ∧ screenshot !! "data" = Some data
    ∧ b64decode data = Ret png
    ∧ file_write f png w3 = (Ret tt, w4)
    ∧ file_close f w4 = (Ret tt, w').
Proof. apply capture_page_success_inv. Qed.

Lemma X6_capture_success_witness :
  let P := Sim.platform Scenarios.pages in
  let url := Scenarios.src "/about" in
  let out := source_img Baseline.REPORT_DIR "/about" in
  ∃ w0 w1 screenshot w2 f w3 data png w4,
    driver_get (Platform := P) url Sim.start = (Ret tt, w0)
    ∧ driver_capture_screenshot (Platform := P) w1 = (Ret screenshot, w2)
    ∧ open_file (Platform := P) out "wb" w2 = (Ret f, w3)
    ∧ screenshot !! "data" = Some data
    ∧ b64decode (Platform := P) data = Ret png
    ∧ file_write (Platform := P) f png w3 = (Ret tt, w4)
    ∧ file_close (Platform := P) f w4
      = (Ret tt, (capture_page (Platform0 := P) Baseline.ACCEPT_XPATH 400
                    url out Sim.start).2).
Proof.
  apply (@X6_capture_success_wrote_image Sim.world
           (Sim.platform Scenarios.pages) Baseline.ACCEPT_XPATH 400).
  vm_compute; reflexivity.
Defined.

(** ** Where a run can fail *)

Section Failures.
Context {World : Type} `{!Platform World}.
Implicit Types (rd : string) (take : string → string → M World bool).

Lemma capture_side_raise_inv take url img (w : World) e w' :
  capture_side take url img w = (Raise e, w') →
  ∃ u, take u img w = (Raise e, w').
Proof.
  unfold capture_side. destruct (truthy_opt url); [eauto|done].
Qed.

Lemma compare_page_raise_inv rd take sm tm p (w : World) e w' :
  compare_page rd take sm tm p w = (Raise e, w') →
  os_makedirs (page_dir rd p) w = (Raise e, w')
  ∨ ∃ u img w0, take u img w0 = (Raise e, w').
Proof.
  unfold compare_page. intros H.
  apply bind_Raise_inv in H as [H|(? & w0 & _ & H)]; [by left|]. right.
  apply bind_Raise_inv in H as [H|(? & w1 & _ & H)].
  { apply capture_side_raise_inv in H as [u H]. eauto. }
  apply bind_Raise_inv in H as [H|(? & w2 & _ & H)]; [|done].
  apply capture_side_raise_inv in H as [u H]. eauto.
Qed.

Lemma compare_pages_raise_inv rd take sm tm paths acc (w : World) e w' :
  compare_pages rd take sm tm paths acc w = (Raise e, w') →
  ∃ p w0, p ∈ paths ∧ compare_page rd take sm tm p w0 = (Raise e, w').
Proof.
  revert acc w. induction paths as [|p paths IH]; intros acc w; [done|].
  simpl. intros [H|(entry & w1 & _ & H)]%bind_Raise_inv.
  - exists p, w. split; [left|done].
  - apply IH in H as (q & w0 & Hq & H). exists q, w0. split; [by right|done].
Qed.

Lemma lift_path_map_raise urls (w : World) e w' :
  lift (path_map urls ∅) w = (Raise e, w') → ∃ u, urlparse_path u = Raise e.
Proof.
  unfold lift. intros [= H _].
  apply path_map_raise_iff in H as (_ & u & _ & _ & _ & H). eauto.
Qed.

Lemma generate_html_report_no_raise rd title entries (w : World) e w' :
  generate_html_report rd title entries w ≠ (Raise e, w').
Proof.
  destruct (generate_html_report_returns rd title entries w) as [w1 ->]. done.
Qed.

(** A failed run failed in building a mapping or in the page loop. *)
Lemma run_raise_inv (get : string → M World (list string))
    (fallback : list string → list string) rd title take
    surl turl (w : World) e w' :
  fetcher_contract get None ∨ fetcher_contract get (Some 15%Z) →
  (source_urls <- get surl;;;
   target_urls <- get turl;;;
   let target_urls := fallback target_urls in
   source_map <- lift (path_map source_urls ∅);;;
   target_map <- lift (path_map target_urls ∅);;;
   report_entries <-
     compare_pages rd take source_map target_map
       (all_paths source_map target_map) [];;;
   generate_html_report rd title report_entries;;;
   ret report_entries) w = (Raise e, w') →
  (∃ u, urlparse_path u = Raise e)
  ∨ ∃ sm tm p w0, compare_page rd take sm tm p w0 = (Raise e, w').
Proof.
  intros Hget H.
  assert (Hret : ∀ url w0 e0 w1, get url w0 ≠ (Raise e0, w1)).
  { intros url w0 e0 w1 Heq.
    destruct Hget as [(_ & _ & _ & _ & Hg)|(_ & _ & _ & _ & Hg)];
      destruct (Hg url w0) as (? & ? & Hr); congruence. }
  apply bind_Raise_inv in H as [H|(srcs & w1 & _ & H)]; [by apply Hret in H|].
  apply bind_Raise_inv in H as [H|(tgts & w2 & _ & H)]; [by apply Hret in H|].
  apply bind_Raise_inv in H as [H|(sm & w3 & _ & H)].
  { left. by eapply lift_path_map_raise. }
  apply bind_Raise_inv in H as [H|(tm & w4 & _ & H)].
  { left. by eapply lift_path_map_raise. }
  apply bind_Raise_inv in H as [H|(entries & w5 & _ & H)].
  { right. apply compare_pages_raise_inv in H as (p & w0 & _ & H). eauto. }
  apply bind_Raise_inv in H as [H|(? & w6 & _ & H)]; [|done].
  by apply generate_html_report_no_raise in H.
Qed.
End Failures.

(** X7: a variant run can fail in two places only: [urlparse] rejecting a
    URL, or [os.makedirs] failing for the directory of a page.  Neither
    the sitemap fetches, nor any capture, nor the writing of the report
    makes the run fail. *)
Theorem X7_variant_run_failure_sources {World : Type} `{!Platform World}
    (w : World) (e : exn) (w' : World) :
  Variant.run_test w = (Raise e, w') →
  (∃ u, urlparse_path u = Raise e)
  ∨ (∃ p w0, os_makedirs (page_dir Variant.REPORT_DIR p) w0 = (Raise e, w')).
Proof.
  intros H.
  destruct (run_raise_inv Variant.get_sitemap_urls (fun l => l) _ _ _ _ _
              _ _ _ (or_introl variant_fetcher) H)
    as [?|(sm & tm & p & w0 & Hpage)]; [by left|].
  clear H. rename Hpage into H. right. apply compare_page_raise_inv in H as [?|(u & img & w1 & H)]; [eauto|].
  destruct (variant_take_returns u img w1) as (? & ? & Hr). congruence.
Qed.

Lemma X7_variant_run_failure_witness :
  let P := Worlds.without_directories Scenarios.pages in
  (∃ u, urlparse_path (Platform := P) u = Raise OSError)
  ∨ (∃ p w0,
       os_makedirs (Platform := P) (page_dir Variant.REPORT_DIR p) w0
       = (Raise OSError, Sim.start)).
Proof.
  apply (@X7_variant_run_failure_sources Sim.world
           (Worlds.without_directories Scenarios.pages) Sim.start).
  vm_compute; reflexivity.
Defined.

(** X8: a baseline run can fail in three places only: [urlparse] rejecting
    a URL, [os.makedirs] failing for the directory of a page, or a capture
    attempt raising an exception that is not a [WebDriverException].
    Neither the sitemap fetches nor the writing of the report makes the
    run fail. *)
Theorem X8_baseline_run_failure_sources {World : Type} `{!Platform World}
    (w : World) (e : exn) (w' : World) :
  Baseline.run_test w = (Raise e, w') →
  (∃ u, urlparse_path u = Raise e)
  ∨ (∃ p w0, os_makedirs (page_dir Baseline.REPORT_DIR p) w0 = (Raise e, w'))
  ∨ (is_WebDriverException e = false
     ∧ ∃ url out w0,
         capture_page Baseline.ACCEPT_XPATH 400 url out w0 = (Raise e, w')).
Proof.
  intros H.
  destruct (run_raise_inv Baseline.get_sitemap_urls Baseline.with_fallback
              _ _ _ _ _ _ _ _ (or_intror baseline_fetcher) H)
    as [?|(sm & tm & p & w0 & Hpage)]; [by left|].
  clear H. rename Hpage into H. right. apply compare_page_raise_inv in H as [?|(u & img & w1 & H)]; [eauto|].
  right. pose proof (attempt_loop_outcome (seq 1 Baseline.RETRY_COUNT) u img w1)
    as Hout.
  unfold Baseline.take_fullpage_screenshot in H. rewrite H in Hout.
  destruct Hout as (He & k & w2 & _ & _ & Hcap). eauto 10.
Qed.

Lemma X8_baseline_run_failure_witness :
  let P := Sim.platform Scenarios.read_only_image in
  (∃ u, urlparse_path (Platform := P) u = Raise OSError)
  ∨ (∃ p w0,
       os_makedirs (Platform := P) (page_dir Baseline.REPORT_DIR p) w0
       = (Raise OSError,
          (Baseline.run_test (Platform0 := P) Sim.start).2))
  ∨ (is_WebDriverException OSError = false
     ∧ ∃ url out w0,
         capture_page (Platform0 := P) Baseline.ACCEPT_XPATH 400 url out w0
         = (Raise OSError, (Baseline.run_test (Platform0 := P) Sim.start).2)).
Proof.
  apply (@X8_baseline_run_failure_sources Sim.world
           (Sim.platform Scenarios.read_only_image) Sim.start).
  vm_compute; reflexivity.
Defined.

(** ** Runs without pages *)

Section EmptyRuns.
Context {World : Type} `{!Platform World}.

Lemma all_paths_empty : all_paths (∅ : gmap string string) ∅ = [].
Proof.
  unfold all_paths. rewrite dom_empty_L, union_empty_l_L, elements_empty.
  done.
Qed.

Lemma compare_pages_length rd take sm tm paths acc (w : World) es w' :
  compare_pages rd take sm tm paths acc w = (Ret es, w') →
  length es = (length acc + length paths)%nat.
Proof.
  intros (new & -> & Hnew)%compare_pages_inv.
  by rewrite length_app, (Forall2_length _ _ _ Hnew).
Qed.
End EmptyRuns.

(** X9: a baseline run that produces its entries produces at least one:
    the target URLs it works on are never empty, thanks to the homepage
    fallback. *)
Theorem X9_baseline_report_never_empty {World : Type} `{!Platform World}
    (w : World) (entries : list ReportEntry) (w' : World) :
  Baseline.run_test w = (Ret entries, w') → entries ≠ [].
Proof.
  intros (srcs & w1 & tgts & w2 & sm & tm & w3
          & _ & _ & _ & Htm & Hloop)%baseline_run_inv.
  apply compare_pages_length in Hloop. simpl in Hloop.
  assert (∃ u urls, Baseline.with_fallback tgts = u :: urls) as (u & urls & Hu).
  { destruct tgts; simpl; eauto. }
  rewrite Hu in Htm. destruct (path_map_head _ _ _ _ Htm) as [p Hp].
  assert (p ∈ all_paths sm tm) as Hin.
  { apply all_paths_elem. right. apply (path_map_keys _ _ _ Htm).
    exists u. split; [left|done]. }
  intros ->. destruct (all_paths sm tm); [by apply elem_of_nil in Hin|done].
Qed.

Lemma X9_baseline_report_witness :
  [entry_of "/" false true] ≠ [].
Proof.
  apply (@X9_baseline_report_never_empty Sim.world
           (Sim.platform Worlds.offline) Sim.start
           [entry_of "/" false true]
           (Baseline.run_test (Platform0 := Sim.platform Worlds.offline)
              Sim.start).2).
  vm_compute; reflexivity.
Defined.

(** X10: when both sitemap fetches of the variant give no URL, the run
    makes no directory and loads no page: it goes straight from the
    fetches to the report, written with no entry at all. *)
Theorem X10_variant_run_without_urls {World : Type} `{!Platform World}
    (w w1 w2 : World) :
  Variant.get_sitemap_urls Variant.SOURCE_SITEMAP_URL w = (Ret [], w1) →
  Variant.get_sitemap_urls Variant.TARGET_SITEMAP_URL w1 = (Ret [], w2) →
  ∃ w',
    generate_html_report Variant.REPORT_DIR "Regression Report" [] w2
    = (Ret tt, w')
    ∧ Variant.run_test w = (Ret [], w').
Proof.
  intros Hs Ht.
  destruct (generate_html_report_returns Variant.REPORT_DIR
              "Regression Report" [] w2) as [w' Hrep].
  exists w'. split; [done|]. unfold Variant.run_test.
  rewrite (bind_Ret_intro _ _ _ _ _ Hs), (bind_Ret_intro _ _ _ _ _ Ht).
  simpl path_map. unfold lift at 1 2, bind at 1 2.
  rewrite all_paths_empty. simpl compare_pages.
  unfold ret at 1, bind at 1. by rewrite (bind_Ret_intro _ _ _ _ _ Hrep).
Qed.

Lemma X10_variant_run_without_urls_witness :
  ∃ w',
    generate_html_report (Platform0 := Sim.platform Worlds.offline)
      Variant.REPORT_DIR "Regression Report" [] Sim.start = (Ret tt, w')
    ∧ Variant.run_test (Platform0 := Sim.platform Worlds.offline) Sim.start
      = (Ret [], w').
Proof.
  apply (@X10_variant_run_without_urls Sim.world
           (Sim.platform Worlds.offline) Sim.start Sim.start Sim.start);
    vm_compute; reflexivity.
Defined.

(** ** Entries and the report document *)

Section Document.
Context {World : Type} `{!Platform World}.

(** Every entry of a run is built by the loop body from two outcomes. *)
Lemma run_entry_shape rd take sm tm paths acc (w : World) es w' e :
  compare_pages rd take sm tm paths acc w = (Ret es, w') →
  e ∈ es → e ∈ acc ∨ ∃ p bs bt, e = entry_of p bs bt.
Proof.
  intros (new & -> & Hnew)%compare_pages_inv [?|He]%elem_of_app; [by left|].
  right. pose proof (Forall2_made_for_elem _ _ _ _ _ _ _ Hnew He)
    as (w0 & w1 & (? & bs & ? & bt & _ & _ & _ & ->)%compare_page_inv).
  eauto.
Qed.

Lemma truthy_app_nonempty s t : s ≠ "" → Py.truthy (s +:+ t) = true.
Proof. by destruct s. Qed.

(** The fields and the two image lines of an entry built by the loop
    body. *)
Lemma entry_of_lines p bs bt :
  let e := entry_of p bs bt in
  slug e = get_path_slug (path e)
  ∧ (source_failed e = false →
     source e = Some (slug e +:+ "/source.png")
     ∧ entry_html e !! 2%nat
       = Some ("<img src='" +:+ slug e +:+ "/source.png" +:+ "' alt='Source'>"))
  ∧ (target_failed e = false →
     target e = Some (slug e +:+ "/target.png")
     ∧ entry_html e !! 3%nat
       = Some ("<img src='" +:+ slug e +:+ "/target.png" +:+ "' alt='Target'>"))
  ∧ (source_failed e = true → entry_html e !! 2%nat = Some SOURCE_MISSING)
  ∧ (target_failed e = true → entry_html e !! 3%nat = Some TARGET_MISSING).
Proof.
  pose proof (truthy_app_nonempty (get_path_slug p) "/source.png"
                (slug_nonempty p)) as Hs.
  pose proof (truthy_app_nonempty (get_path_slug p) "/target.png"
                (slug_nonempty p)) as Ht.
  destruct bs, bt; simpl; unfold entry_html; simpl; rewrite ?Hs, ?Ht;
    repeat split; (done || by rewrite app_assoc).
Qed.

Lemma filter_page_blocks entries :
  filter (fun l => Py.startswith "<div class='page'>" l = true)
    (concat (entry_html <$> entries))
  = (fun e => "<div class='page'><h2>" +:+ path e +:+ "</h2>") <$> entries.
Proof.
  induction entries as [|e entries IH]; [done|].
  rewrite !fmap_cons, concat_cons, filter_app, IH. f_equal.
  unfold entry_html.
  rewrite filter_cons_True by (by cbv).
  rewrite filter_cons_False by (by cbv).
  rewrite filter_cons_False by (by destruct (truthy_opt (source e)); cbv).
  rewrite filter_cons_False by (by destruct (truthy_opt (target e)); cbv).
  by rewrite filter_cons_False by (by cbv).
Qed.
End Document.

(** X11: in every entry of a run of either script, the slug is the slug of
    the entry's path; a side that did not fail has the image
    [slug/source.png] (or [slug/target.png]) and its line of the report is
    the image tag for that file; a side that failed has the "not
    available" marker on its line. *)
Theorem X11_entries_and_their_lines {World : Type} `{!Platform World} :
  let well_formed (e : ReportEntry) :=
    slug e = get_path_slug (path e)
    ∧ (source_failed e = false →
       source e = Some (slug e +:+ "/source.png")
       ∧ entry_html e !! 2%nat
         = Some ("<img src='" +:+ slug e +:+ "/source.png" +:+ "' alt='Source'>"))
    ∧ (target_failed e = false →
       target e = Some (slug e +:+ "/target.png")
       ∧ entry_html e !! 3%nat
         = Some ("<img src='" +:+ slug e +:+ "/target.png" +:+ "' alt='Target'>"))
    ∧ (source_failed e = true → entry_html e !! 2%nat = Some SOURCE_MISSING)
    ∧ (target_failed e = true → entry_html e !! 3%nat = Some TARGET_MISSING)
  in
  (∀ (w : World) entries w' e,
     Baseline.run_test w = (Ret entries, w') → e ∈ entries → well_formed e)
  ∧ (∀ (w : World) entries w' e,
       Variant.run_test w = (Ret entries, w') → e ∈ entries → well_formed e).
Proof.
  split; intros w entries w' e Hrun He.
  - apply baseline_run_inv in Hrun
      as (? & ? & ? & ? & sm & tm & ? & _ & _ & _ & _ & Hloop).
    destruct (run_entry_shape _ _ _ _ _ _ _ _ _ _ Hloop He)
      as [[]%elem_of_nil|(p & bs & bt & ->)].
    apply entry_of_lines.
  - apply variant_run_inv in Hrun
      as (? & ? & ? & ? & sm & tm & ? & _ & _ & _ & _ & Hloop).
    destruct (run_entry_shape _ _ _ _ _ _ _ _ _ _ Hloop He)
      as [[]%elem_of_nil|(p & bs & bt & ->)].
    apply entry_of_lines.
Qed.

Lemma X11_entries_witness :
  let e := entry_of "/about" true true in
  source e = Some (slug e +:+ "/source.png")
  ∧ entry_html e !! 2%nat = Some "<img src='about/source.png' alt='Source'>".
Proof.
  refine (proj1 (proj2 (proj1 (@X11_entries_and_their_lines Sim.world
                                 (Sim.platform Scenarios.pages))
                          Sim.start
                          [entry_of "/" true false; entry_of "/about" true true;
                           entry_of "/contact" false false]
                          (Baseline.run_test
                             (Platform0 := Sim.platform Scenarios.pages)
                             Sim.start).2
                          (entry_of "/about" true true) _ _)) _).
  - vm_compute; reflexivity.
  - right. left.
  - reflexivity.
Defined.

(** X12: the report document has four opening lines, five lines for each
    entry and one closing line, and its lines that open a page block are
    the headings of the entries, one for each entry and in the order of
    the entries, whatever the title and the paths are. *)
Theorem X12_report_has_one_block_per_entry (title : string)
    (entries : list ReportEntry) :
  length (report_html title entries) = (5 + 5 * length entries)%nat
  ∧ filter (fun l => Py.startswith "<div class='page'>" l = true)
      (report_html title entries)
    = (fun e => "<div class='page'><h2>" +:+ path e +:+ "</h2>") <$> entries.
Proof.
  split.
  - unfold report_html. rewrite !length_app. simpl.
    assert (length (concat (entry_html <$> entries))
            = (5 * length entries)%nat) as ->; [|lia].
    induction entries as [|e entries IH]; [done|].
    rewrite fmap_cons, concat_cons, length_app, IH. simpl. lia.
  - unfold report_html. rewrite !filter_app, filter_page_blocks.
    rewrite filter_cons_False by (by cbv).
    rewrite filter_cons_False by (by cbv).
    rewrite filter_cons_False by (by cbv).
    rewrite filter_cons_False by (by cbv).
    rewrite filter_nil. simpl.
    rewrite filter_cons_False by (by cbv).
    by rewrite filter_nil, app_nil_r.
Qed.

(** ** Writing the report *)

(** X13: [generate_html_report] returns whatever the file system does.
    When [index.html] cannot be opened, nothing is written and the failure
    is swallowed; when it can, the text written is the lines of the
    document joined by line feeds, and a failure of that write or of the
    closing of the file is swallowed as well. *)
Theorem X13_report_write_failures_swallowed {World : Type}
    `{!Platform World} (rd title : string) (entries : list ReportEntry)
    (w : World) :
  let file := os_path_join rd "index.html" in
  let text := String.concat (String "010" "") (report_html title entries) in
  (∃ w', generate_html_report rd title entries w = (Ret tt, w'))
  ∧ (∀ e w1,
       open_file file "w" w = (Raise e, w1) →
       generate_html_report rd title entries w = (Ret tt, w1))
  ∧ (∀ f w1 r w2 r' w3,
       open_file file "w" w = (Ret f, w1) →
       file_write f text w1 = (r, w2) →
       file_close f w2 = (r', w3) →
       generate_html_report rd title entries w = (Ret tt, w3)).
Proof.
  cbv zeta. split; [apply generate_html_report_returns|]. split.
  - intros e w1 Hopen.
    unfold generate_html_report, try_except, with_open, bind.
    by rewrite Hopen.
  - intros f w1 r w2 r' w3 Hopen Hwrite Hclose.
    unfold generate_html_report, try_except, with_open.
    unfold bind at 1. rewrite Hopen, Hwrite.
    destruct r as [[]|e]; unfold bind; rewrite Hclose; by destruct r'.
Qed.

Lemma X13_report_write_witness :
  let P := Sim.platform Scenarios.pages in
  ∃ w3,
    generate_html_report (Platform0 := P) Baseline.REPORT_DIR
      "Visual Regression Report" [entry_of "/" true false] Sim.start
    = (Ret tt, w3)
    ∧ Sim.disk w3 !! "regression_report_bumperdoc/index.html"
      = Some (String.concat (String "010" "")
                (report_html "Visual Regression Report"
                   [entry_of "/" true false])).
Proof.
  set (P := Sim.platform Scenarios.pages).
  set (text := String.concat (String "010" "")
                 (report_html "Visual Regression Report"
                    [entry_of "/" true false])).
  set (w1 := (open_file (Platform := P)
                "regression_report_bumperdoc/index.html" "w" Sim.start).2).
  set (w2 := (file_write (Platform := P) 0 text w1).2).
  exists w2. split; [|vm_compute; reflexivity].
  apply (proj2 (proj2 (@X13_report_write_failures_swallowed Sim.world P
                         Baseline.REPORT_DIR "Visual Regression Report"
                         [entry_of "/" true false] Sim.start))
           0%nat w1 (Ret tt) w2 (Ret tt) w2);
    vm_compute; reflexivity.
Defined.

(** ** Edge cases of the loop body *)

(** X14: a URL that is present in a mapping but empty (the text of an empty
    [<loc>]) is handled exactly as an absent one: the loop body does for
    the path what it does when the key is deleted from the mapping, so no
    capture is attempted for that side. *)
Theorem X14_empty_url_is_like_no_url {World : Type} `{!Platform World}
    (rd : string) (take : string → string → M World bool)
    (sm tm : gmap string string) (p : string) (w : World) :
  (sm !! p = Some "" →
   compare_page rd take sm tm p w = compare_page rd take (delete p sm) tm p w)
  ∧ (tm !! p = Some "" →
     compare_page rd take sm tm p w
     = compare_page rd take sm (delete p tm) p w).
Proof.
  split; intros Hp; unfold compare_page; by rewrite Hp, lookup_delete_eq.
Qed.

Lemma X14_empty_url_witness :
  let P := Sim.platform Scenarios.pages in
  (compare_page (Platform0 := P) Baseline.REPORT_DIR
     Baseline.take_fullpage_screenshot {[ "" := "" ]} ∅ "" Sim.start).1
  = Ret (entry_of "" false false).
Proof.
  cbv zeta.
  rewrite (proj1 (@X14_empty_url_is_like_no_url Sim.world
                    (Sim.platform Scenarios.pages) Baseline.REPORT_DIR
                    Baseline.take_fullpage_screenshot {[ "" := "" ]} ∅ ""
                    Sim.start)); vm_compute; reflexivity.
Defined.

(** ** The execution blocks *)

(** X15: the execution block of either script calls [driver.quit()] once,
    in the world [run_test] left, whether [run_test] returned or raised;
    no exception of [run_test] leaves the block, whose outcome is the
    outcome of [driver.quit()]. *)
Theorem X15_browser_closed_after_every_run {World : Type}
    `{!Platform World} (driver_quit : M World unit) (w : World) :
  baseline_execution driver_quit w = driver_quit (Baseline.run_test w).2
  ∧ variant_execution driver_quit w = driver_quit (Variant.run_test w).2.
Proof.
  unfold baseline_execution, variant_execution, try_finally, try_except, bind.
  split.
  - destruct (Baseline.run_test w) as [[entries|e] w1]; simpl;
      by destruct (driver_quit w1) as [[[]|e'] w2].
  - destruct (Variant.run_test w) as [[entries|e] w1]; simpl;
      by destruct (driver_quit w1) as [[[]|e'] w2].
Qed.

(** ** The two fetchers *)

(** X16: where [requests.get] answers the same with and without the
    baseline's timeout, the fetchers of the two scripts give the same
    result: the [ValueError] the baseline raises for a sitemap without
    URLs is caught on the spot and leaves the same empty list the variant
    returns. *)
Theorem X16_fetchers_agree {World : Type} `{!Platform World}
    (url : string) (w : World) :
  requests_get url (Some 15%Z) w = requests_get url None w →
  Baseline.get_sitemap_urls url w = Variant.get_sitemap_urls url w.
Proof.
  intros Hget.
  unfold Baseline.get_sitemap_urls, Variant.get_sitemap_urls.
  unfold try_except, bind, lift. rewrite Hget.
  destruct (requests_get url None w) as [[r|e] w1]; [|done].
  destruct (raise_for_status r); [|done].
  destruct (find_all_loc (content r)) as [[|loc locs]|e]; done.
Qed.

Lemma X16_fetchers_agree_witness :
  Baseline.get_sitemap_urls (Platform0 := Sim.platform Worlds.offline)
    Baseline.SOURCE_SITEMAP_URL Sim.start
  = Variant.get_sitemap_urls (Platform0 := Sim.platform Worlds.offline)
      Baseline.SOURCE_SITEMAP_URL Sim.start.
Proof.
  apply (@X16_fetchers_agree Sim.world (Sim.platform Worlds.offline)).
  reflexivity.
Defined.

(** With an image file that cannot be written, the baseline's block still
    ends normally once the browser is closed, and no [index.html] has been
    written. *)
Example execution_after_failed_run :
  let P := Sim.platform Scenarios.read_only_image in
  let end_ := baseline_execution (Platform0 := P) Worlds.sim_driver_quit
                Sim.start in
  end_.1 = Ret tt
  ∧ Sim.history end_.2 = []
  ∧ Sim.disk end_.2 !! "regression_report_bumperdoc/index.html" = None.
Proof. vm_compute. done. Qed.

(** ** The scroll loop *)

Section Scroll.
Implicit Types (h step y t : Z).

Lemma py_range_elem h step y :
  y ∈ py_range h step
  ↔ ∃ i : nat, (i < Z.to_nat ((h + step - 1) `div` step))%nat
               ∧ y = (Z.of_nat i * step)%Z.
Proof.
  unfold py_range. rewrite list_elem_of_fmap. split.
  - intros (i & -> & Hi%elem_of_seq). exists i. split; [lia|done].
  - intros (i & Hi & ->). exists i. split; [done|]. apply elem_of_seq. lia.
Qed.

Lemma rounds_up h step :
  (0 < step)%Z → ((h + step - 1) `div` step = (h - 1) `div` step + 1)%Z.
Proof.
  intros Hstep. replace (h + step - 1)%Z with (h - 1 + 1 * step)%Z by lia.
  apply Z.div_add. lia.
Qed.
End Scroll.

Section ScrollLoop.
Context {World : Type} `{!Platform World}.
Implicit Types (h step y t : Z) (ys : list Z) (w : World).

Lemma py_range_members h step y :
  (0 < step)%Z →
  y ∈ py_range h step ↔ (0 ≤ y < h)%Z ∧ (step | y)%Z.
Proof.
  intros Hstep. rewrite py_range_elem, (rounds_up h step Hstep).
  pose proof (Z.mul_div_le (h - 1) step Hstep) as Hle.
  split.
  - intros (i & Hi & ->). split; [|apply Z.divide_factor_r]. nia.
  - intros [Hy [k ->]]. exists (Z.to_nat k).
    assert (0 ≤ k)%Z by nia.
    assert (k ≤ (h - 1) `div` step)%Z
      by (apply Z.div_le_lower_bound; [done|nia]).
    split; lia.
Qed.

Lemma multiples_sorted step a n :
  (0 < step)%Z →
  StronglySorted Z.lt ((fun i : nat => Z.of_nat i * step)%Z <$> seq a n).
Proof.
  intros Hstep. revert a. induction n as [|n IH]; intros a; simpl.
  - constructor.
  - constructor; [apply IH|].
    apply Forall_forall. intros y (i & -> & Hi%elem_of_seq)%list_elem_of_fmap.
    nia.
Qed.

Lemma py_range_cover h step t :
  (0 < step)%Z → (0 ≤ t < h)%Z →
  ∃ y, y ∈ py_range h step ∧ (y ≤ t < y + step)%Z.
Proof.
  intros Hstep Ht. exists (t `div` step * step)%Z.
  pose proof (Z.mul_div_le t step Hstep).
  pose proof (Z.mul_succ_div_gt t step Hstep).
  assert (0 ≤ t `div` step)%Z by (apply Z.div_pos; lia).
  split; [|lia]. apply py_range_members; [done|].
  split; [lia|]. apply Z.divide_factor_r.
Qed.

(** The loop over positions that all return. *)
Lemma for_each_scrolled ys w w' :
  scrolled ys w w' →
  for_each ys (fun y => driver_execute_script (ScrollTo y);;; ret tt) w
  = (Ret tt, w').
Proof.
  revert w. induction ys as [|y ys IH]; intros w; simpl.
  - by intros ->.
  - intros (r & w1 & Hy & Hrest). unfold bind at 1 2. rewrite Hy.
    by apply IH.
Qed.

(** The loop stops at the first position whose call raises. *)
Lemma for_each_scroll_raise ys1 y ys2 w wk e w' :
  scrolled ys1 w wk →
  driver_execute_script (ScrollTo y) wk = (Raise e, w') →
  for_each (ys1 ++ y :: ys2)
    (fun y => driver_execute_script (ScrollTo y);;; ret tt) w
  = (Raise e, w').
Proof.
  revert w. induction ys1 as [|z ys1 IH]; intros w; simpl.
  - intros -> Hy. unfold bind at 1 2. by rewrite Hy.
  - intros (r & w1 & Hz & Hrest) Hy. unfold bind at 1 2. rewrite Hz.
    by apply IH.
Qed.

(** The capture procedure from the scroll loop on. *)
Lemma capture_page_from_loop xpath step url out w w0 wa th wb :
  driver_get url w = (Ret tt, w0) →
  dismiss_cookie_banner xpath w0 = (Ret tt, wa) →
  driver_execute_script ScrollHeight wa = (Ret th, wb) →
  capture_page xpath step url out w
  = match scroll_positions th step with
    | Ret ys =>
        (for_each ys (fun y => driver_execute_script (ScrollTo y);;; ret tt);;;
         finish_capture out) wb
    | Raise e => (Raise e, wb)
    end.
Proof.
  intros Hget Hban Hh. unfold capture_page.
  rewrite (bind_Ret_intro _ _ _ _ _ Hget), (bind_Ret_intro _ _ _ _ _ Hban).
  rewrite (bind_Ret_intro _ _ _ _ _ Hh). unfold lift at 1, bind at 1.
  by destruct (scroll_positions th step).
Qed.
End ScrollLoop.

(** X17: in a capture attempt that has loaded the page and read the
    document height, a height that is not an [int] ends the attempt with a
    [TypeError] in the world the reading left, before any scrolling.  For
    an [int] height [h] the scroll loop calls [window.scrollTo(0, y)], in
    ascending order, for exactly the multiples [y] of the step with
    [0 <= y < h], so that every offset of the document is less than one
    step below a position (and no call is made when [h <= 0]); when all
    the calls return, the attempt goes on with the steps after the loop in
    the world the last call left; when a call raises, the attempt ends
    with that exception there, and no later position is scrolled to. *)
Theorem X17_scroll_loop_visits_positions {World : Type} `{!Platform World}
    (xpath : string) (step : Z) (url out : string) (w w0 wa : World)
    (th : jsval) (wb : World) :
  (0 < step)%Z →
  driver_get url w = (Ret tt, w0) →
  dismiss_cookie_banner xpath w0 = (Ret tt, wa) →
  driver_execute_script ScrollHeight wa = (Ret th, wb) →
  match th with
  | JsOther => capture_page xpath step url out w = (Raise TypeError, wb)
  | JsInt h =>
      ∃ ys,
        StronglySorted Z.lt ys
        ∧ (∀ y, y ∈ ys ↔ (0 ≤ y < h)%Z ∧ (step | y)%Z)
        ∧ (∀ t, (0 ≤ t < h)%Z → ∃ y, y ∈ ys ∧ (y ≤ t < y + step)%Z)
        ∧ (∀ wc,
             scrolled ys wb wc →
             capture_page xpath step url out w = finish_capture out wc)
        ∧ (∀ ys1 y ys2 wk e w',
             ys = (ys1 ++ y :: ys2)%list →
             scrolled ys1 wb wk →
             driver_execute_script (ScrollTo y) wk = (Raise e, w') →
             capture_page xpath step url out w = (Raise e, w'))
  end.
Proof.
  intros Hstep Hget Hban Hh.
  rewrite (capture_page_from_loop _ step _ out _ _ _ _ _ Hget Hban Hh).
  destruct th as [h|]; [|done]. simpl. exists (py_range h step).
  split; [by apply multiples_sorted|].
  split; [intros y; by apply py_range_members|].
  split; [intros t; by apply py_range_cover|]. split.
  - intros wc Hscr. by rewrite (bind_Ret_intro _ _ _ _ _ (for_each_scrolled _ _ _ Hscr)).
  - intros ys1 y ys2 wk e w' -> Hscr Hraise.
    by rewrite (bind_Raise_intro _ _ _ _ _
                  (for_each_scroll_raise _ _ ys2 _ _ _ _ Hscr Hraise)).
Qed.

Lemma X17_scroll_loop_witness :
  let P := Sim.platform Scenarios.pages in
  let url := Scenarios.src "/about" in
  let out := source_img Baseline.REPORT_DIR "/about" in
  let wb := (driver_get (Platform := P) url Sim.start).2 in
  ∃ ys,
    StronglySorted Z.lt ys
    ∧ (∀ y, y ∈ ys ↔ (0 ≤ y < 900)%Z ∧ (400 | y)%Z)
    ∧ (∀ t, (0 ≤ t < 900)%Z → ∃ y, y ∈ ys ∧ (y ≤ t < y + 400)%Z)
    ∧ (∀ wc,
         scrolled (Platform0 := P) ys wb wc →
         capture_page (Platform0 := P) Baseline.ACCEPT_XPATH 400 url out
           Sim.start = finish_capture (Platform0 := P) out wc)
    ∧ (∀ ys1 y ys2 wk e w',
         ys = (ys1 ++ y :: ys2)%list →
         scrolled (Platform0 := P) ys1 wb wk →
         driver_execute_script (Platform := P) (ScrollTo y) wk
           = (Raise e, w') →
         capture_page (Platform0 := P) Baseline.ACCEPT_XPATH 400 url out
           Sim.start = (Raise e, w')).
Proof.
  cbv zeta.
  apply (@X17_scroll_loop_visits_positions Sim.world
           (Sim.platform Scenarios.pages) Baseline.ACCEPT_XPATH 400
           (Scenarios.src "/about") (source_img Baseline.REPORT_DIR "/about")
           Sim.start
           (driver_get (Platform := Sim.platform Scenarios.pages)
              (Scenarios.src "/about") Sim.start).2
           (driver_get (Platform := Sim.platform Scenarios.pages)
              (Scenarios.src "/about") Sim.start).2
           (JsInt 900));
    [lia | vm_compute; reflexivity ..].
Defined.

(** ** The size of the report *)

Section Size.
Context {World : Type} `{!Platform World}.

Lemma path_map_size urls (m m' : gmap string string) :
  path_map urls m = Ret m' → (size m' ≤ size m + length urls)%nat.
Proof.
  revert m. induction urls as [|u urls IH]; intros m; simpl.
  - intros [= ->]. lia.
  - destruct (urlparse_path u) as [p|]; [|done]. intros Hm%IH.
    rewrite map_size_insert in Hm. destruct (m !! p); simpl in Hm; lia.
Qed.

Lemma all_paths_length (sm tm : gmap string string) :
  (length (all_paths sm tm) ≤ size sm + size tm)%nat.
Proof.
  unfold all_paths. rewrite (Permutation_length (merge_sort_Permutation _ _)).
  change (length (elements ?X)) with (size X).
  rewrite size_union_alt, <-!(size_dom (D := gset string)).
  pose proof (subseteq_size (dom tm ∖ dom sm) (dom tm)) as Hsub.
  assert (dom tm ∖ dom sm ⊆ dom tm) as Hd.
  { intros x [? _]%elem_of_difference. done. }
  specialize (Hsub Hd). lia.
Qed.
End Size.

(** X18: a run of either script produces at most one entry for each URL it
    works on: the number of entries is at most the number of source URLs
    plus the number of target URLs (in the baseline, counted after the
    homepage fallback). *)
Theorem X18_at_most_one_entry_per_url {World : Type} `{!Platform World} :
  (∀ (w : World) srcs w1 tgts w2 entries w',
     Baseline.get_sitemap_urls Baseline.SOURCE_SITEMAP_URL w = (Ret srcs, w1) →
     Baseline.get_sitemap_urls Baseline.TARGET_SITEMAP_URL w1 = (Ret tgts, w2) →
     Baseline.run_test w = (Ret entries, w') →
     (length entries
      ≤ length srcs + length (Baseline.with_fallback tgts))%nat)
  ∧ (∀ (w : World) srcs w1 tgts w2 entries w',
       Variant.get_sitemap_urls Variant.SOURCE_SITEMAP_URL w = (Ret srcs, w1) →
       Variant.get_sitemap_urls Variant.TARGET_SITEMAP_URL w1 = (Ret tgts, w2) →
       Variant.run_test w = (Ret entries, w') →
       (length entries ≤ length srcs + length tgts)%nat).
Proof.
  split; intros w srcs w1 tgts w2 entries w' Hs Ht Hrun.
  - destruct (baseline_run_from _ _ _ _ _ _ _ Hs Ht Hrun)
      as (sm & tm & w3 & Hsm%path_map_size & Htm%path_map_size & Hloop).
    apply compare_pages_length in Hloop. rewrite Hloop. simpl.
    pose proof (all_paths_length sm tm). rewrite map_size_empty in *. lia.
  - destruct (variant_run_from _ _ _ _ _ _ _ Hs Ht Hrun)
      as (sm & tm & w3 & Hsm%path_map_size & Htm%path_map_size & Hloop).
    apply compare_pages_length in Hloop. rewrite Hloop. simpl.
    pose proof (all_paths_length sm tm). rewrite map_size_empty in *. lia.
Qed.

Lemma X18_at_most_one_entry_witness :
  (length [entry_of "/" true false; entry_of "/about" true true;
           entry_of "/contact" false false] ≤ 2 + 2)%nat.
Proof.
  apply (proj1 (@X18_at_most_one_entry_per_url Sim.world
                  (Sim.platform Scenarios.pages))
           Sim.start
           [Scenarios.src "/"; Scenarios.src "/about"] Sim.start
           [Scenarios.tgt "/about"; Scenarios.tgt "/contact"] Sim.start
           [entry_of "/" true false; entry_of "/about" true true;
            entry_of "/contact" false false]
           (Baseline.run_test (Platform0 := Sim.platform Scenarios.pages)
              Sim.start).2);
    vm_compute; reflexivity.
Defined.

(** ** Retrying and not retrying *)

(** X19: in the baseline, attempts that end in a [WebDriverException] are
    followed by a new attempt as long as fewer than [RETRY_COUNT] were
    made, and the first attempt that goes through makes the capture
    return [True]. *)
Theorem X19_baseline_retry_succeeds {World : Type} `{!Platform World}
    (k : nat) (url out : string) (w w1 w2 : World) :
  (k < Baseline.RETRY_COUNT)%nat →
  attempts_fail Baseline.ACCEPT_XPATH 400 k url out w w1 →
  capture_page Baseline.ACCEPT_XPATH 400 url out w1 = (Ret tt, w2) →
  Baseline.take_fullpage_screenshot url out w = (Ret true, w2).
Proof.
  intros Hk. apply attempt_loop_success_after. by rewrite length_seq.
Qed.

Lemma X19_baseline_retry_witness :
  (Baseline.take_fullpage_screenshot
     (Platform0 := Sim.platform Scenarios.pages) (Scenarios.src "/")
     (source_img Baseline.REPORT_DIR "/") Sim.start).1
  = Ret true.
Proof.
  set (P := Sim.platform Scenarios.pages).
  set (out := source_img Baseline.REPORT_DIR "/").
  set (w1 := (capture_page (Platform0 := P) Baseline.ACCEPT_XPATH 400
                (Scenarios.src "/") out Sim.start).2).
  set (w2 := (capture_page (Platform0 := P) Baseline.ACCEPT_XPATH 400
                (Scenarios.src "/") out w1).2).
  rewrite (@X19_baseline_retry_succeeds Sim.world P 1 (Scenarios.src "/") out
             Sim.start w1 w2); [reflexivity | unfold Baseline.RETRY_COUNT; lia
                               | | vm_compute; reflexivity].
  exists w1. split; [vm_compute; reflexivity|reflexivity].
Defined.

(** X20: the variant's [take_fullpage_screenshot] makes one attempt and
    always returns a boolean: [True] when the attempt goes through, and
    [False], in the world the attempt left, when it raises an exception of
    any class. *)
Theorem X20_variant_capture_single_attempt {World : Type} `{!Platform World}
    (url out : string) (w : World) :
  (∃ b w', Variant.take_fullpage_screenshot url out w = (Ret b, w'))
  ∧ (∀ w1,
       capture_page Variant.ACCEPT_XPATH 500 url out w = (Ret tt, w1) →
       Variant.take_fullpage_screenshot url out w = (Ret true, w1))
  ∧ (∀ e w1,
       capture_page Variant.ACCEPT_XPATH 500 url out w = (Raise e, w1) →
       Variant.take_fullpage_screenshot url out w = (Ret false, w1)).
Proof.
  split; [apply variant_take_returns|].
  split; [apply variant_take_success|apply variant_take_failure].
Qed.

Lemma X20_variant_capture_witness :
  Variant.take_fullpage_screenshot
    (Platform0 := Sim.platform Scenarios.read_only_image) (Scenarios.src "/")
    "regression_reportforbumperdoc2/home/source.png" Sim.start
  = (Ret false,
     (capture_page (Platform0 := Sim.platform Scenarios.read_only_image)
        Variant.ACCEPT_XPATH 500 (Scenarios.src "/")
        "regression_reportforbumperdoc2/home/source.png" Sim.start).2).
Proof.
  apply (proj2 (proj2 (@X20_variant_capture_single_attempt Sim.world
                         (Sim.platform Scenarios.read_only_image)
                         (Scenarios.src "/")
                         "regression_reportforbumperdoc2/home/source.png"
                         Sim.start)) OSError).
  vm_compute; reflexivity.
Defined.

(** ** Where the images of an entry come from *)

Section Provenance.
Context {World : Type} `{!Platform World}.

Lemma made_for_captured rd take srcs tgts sm tm p e :
  path_map srcs ∅ = Ret sm → path_map tgts ∅ = Ret tm →
  made_for rd take sm tm p e →
  (source_failed e = false →
   ∃ u w0 w1, u ∈ srcs ∧ urlparse_path u = Ret p
     ∧ take u (source_img rd p) w0 = (Ret true, w1))
  ∧ (target_failed e = false →
     ∃ u w0 w1, u ∈ tgts ∧ urlparse_path u = Ret p
       ∧ take u (target_img rd p) w0 = (Ret true, w1)).
Proof.
  intros Hsm Htm (w & w' & (w0 & bs & w1 & bt & _ & Hs & Ht & ->)
                            %compare_page_inv).
  split; simpl; intros Hok%negb_false_iff; subst.
  - apply capture_side_inv in Hs as [(_ & [=] & _)|(u & Hu & _ & Htake)].
    destruct (path_map_values _ _ _ _ _ Hsm Hu) as [[=]|[Hin Hp]]. eauto 10.
  - apply capture_side_inv in Ht as [(_ & [=] & _)|(u & Hu & _ & Htake)].
    destruct (path_map_values _ _ _ _ _ Htm Hu) as [[=]|[Hin Hp]]. eauto 10.
Qed.
End Provenance.

(** X21: an entry of a run that shows an image for a side comes from a
    capture that returned [True]: the capture of a URL of that site whose
    path is the entry's path, told to write the image file of that side in
    the page's directory. *)
Theorem X21_shown_image_was_captured {World : Type} `{!Platform World} :
  (∀ (w : World) srcs w1 tgts w2 entries w' e,
     Baseline.get_sitemap_urls Baseline.SOURCE_SITEMAP_URL w = (Ret srcs, w1) →
     Baseline.get_sitemap_urls Baseline.TARGET_SITEMAP_URL w1 = (Ret tgts, w2) →
     Baseline.run_test w = (Ret entries, w') → e ∈ entries →
     (source_failed e = false →
      ∃ u w0 w1, u ∈ srcs ∧ urlparse_path u = Ret (path e)
        ∧ Baseline.take_fullpage_screenshot u
            (source_img Baseline.REPORT_DIR (path e)) w0 = (Ret true, w1))
     ∧ (target_failed e = false →
        ∃ u w0 w1, u ∈ Baseline.with_fallback tgts
          ∧ urlparse_path u = Ret (path e)
          ∧ Baseline.take_fullpage_screenshot u
              (target_img Baseline.REPORT_DIR (path e)) w0 = (Ret true, w1)))
  ∧ (∀ (w : World) srcs w1 tgts w2 entries w' e,
       Variant.get_sitemap_urls Variant.SOURCE_SITEMAP_URL w = (Ret srcs, w1) →
       Variant.get_sitemap_urls Variant.TARGET_SITEMAP_URL w1 = (Ret tgts, w2) →
       Variant.run_test w = (Ret entries, w') → e ∈ entries →
       (source_failed e = false →
        ∃ u w0 w1, u ∈ srcs ∧ urlparse_path u = Ret (path e)
          ∧ Variant.take_fullpage_screenshot u
              (source_img Variant.REPORT_DIR (path e)) w0 = (Ret true, w1))
       ∧ (target_failed e = false →
          ∃ u w0 w1, u ∈ tgts ∧ urlparse_path u = Ret (path e)
            ∧ Variant.take_fullpage_screenshot u
                (target_img Variant.REPORT_DIR (path e)) w0 = (Ret true, w1))).
Proof.
  split; intros w srcs w1 tgts w2 entries w' e Hs Ht Hrun He.
  - destruct (baseline_run_from _ _ _ _ _ _ _ Hs Ht Hrun)
      as (sm & tm & w3 & Hsm & Htm & Hloop).
    apply compare_pages_inv in Hloop as (new & -> & Hnew). simpl in He.
    eapply made_for_captured; [done..|].
    by eapply Forall2_made_for_elem.
  - destruct (variant_run_from _ _ _ _ _ _ _ Hs Ht Hrun)
      as (sm & tm & w3 & Hsm & Htm & Hloop).
    apply compare_pages_inv in Hloop as (new & -> & Hnew). simpl in He.
    eapply made_for_captured; [done..|].
    by eapply Forall2_made_for_elem.
Qed.

Lemma X21_shown_image_witness :
  let P := Sim.platform Scenarios.pages in
  ∃ u w0 w1,
    u ∈ [Scenarios.src "/"; Scenarios.src "/about"]
    ∧ urlparse_path (Platform := P) u = Ret "/about"
    ∧ Baseline.take_fullpage_screenshot (Platform0 := P) u
        (source_img Baseline.REPORT_DIR "/about") w0 = (Ret true, w1).
Proof.
  refine (proj1 (proj1 (@X21_shown_image_was_captured Sim.world
                          (Sim.platform Scenarios.pages))
                   Sim.start
                   [Scenarios.src "/"; Scenarios.src "/about"] Sim.start
                   [Scenarios.tgt "/about"; Scenarios.tgt "/contact"]
                   Sim.start
                   [entry_of "/" true false; entry_of "/about" true true;
                    entry_of "/contact" false false]
                   (Baseline.run_test
                      (Platform0 := Sim.platform Scenarios.pages) Sim.start).2
                   (entry_of "/about" true true) _ _ _ _) _).
  - vm_compute; reflexivity.
  - vm_compute; reflexivity.
  - vm_compute; reflexivity.
  - right. left.
  - reflexivity.
Defined.
